(** * Payment verification, confirmation polling and requirement building

    A shallow embedding of the payment core of the Solana x402 agents:

    - [Executor.verifyPayment]   (merchant-agent, SolanaPaymentExecutor)
    - [Wallet.confirmTransaction], [Wallet.transferSol]
                                 (client-agent, SolanaWallet)
    - [Merchant.getProductDetailsAndRequestPayment] and
      [Merchant.getProductDetailsAndRequestSolanaPayment]
                                 (merchant-agent, agent.ts)
    - [MerchantWallet.verifyTransaction], [OnChain.verifyOnChainTransaction]
                                 (merchant-agent, wallet and executor)
    - [Airdrop.requestAirdrop]   (client-agent, SolanaWallet)
    - [PaymentFlow.createSolanaPaymentRequirements],
      [PaymentFlow.signSolanaPayment],
      [PaymentFlow.verifySolanaPaymentSignature]
                                 (client-agent, payment flow script)
    - [Client.confirmPayment], [Client.processSolanaPayment],
      [Client.processEthereumPayment], [Client.cancelPayment],
      [Client.transferSolana], [Client.requestSolanaAirdrop]
                                 (client-agent, dual-chain agent)

    Console and logger output is not modelled: it never influences a
    returned value or the order of ledger calls.  JavaScript strings are
    modelled by Rocq strings, one character per code unit (code units below
    256); [bigint] values by [Z].  Message literals with characters beyond
    that range stand as their UTF-8 text; no operation inspects them. *)

From Stdlib Require Import String Ascii ZArith List Lia Bool DecimalString.
From Stdlib Require DecimalPos.
Import ListNotations.
Open Scope string_scope.
Open Scope Z_scope.

(** ** JavaScript primitives used by the code *)

Module Js.

(** A thrown [Error] instance; only its message is ever read. *)
Record Error := mkError { message : string }.

(** Computations that either throw or return. *)
Definition Exc (A : Type) : Type := Error + A.

Definition ret {A} (a : A) : Exc A := inr a.
Definition throw {A} (msg : string) : Exc A := inl (mkError msg).
Definition bind {A B} (m : Exc A) (k : A -> Exc B) : Exc B :=
  match m with
  | inl e => inl e
  | inr a => k a
  end.

(** WhiteSpace and LineTerminator code units (below 256): TAB, LF, VT,
    FF, CR, SP and NBSP. *)
Definition isWhiteSpace (c : ascii) : bool :=
  let n := N_of_ascii c in
  ((n =? 9) || (n =? 10) || (n =? 11) || (n =? 12) || (n =? 13)
   || (n =? 32) || (n =? 160))%N.

Fixpoint trimStart (s : string) : string :=
  match s with
  | EmptyString => EmptyString
  | String c r => if isWhiteSpace c then trimStart r else s
  end.

Fixpoint trimEnd (s : string) : string :=
  match s with
  | EmptyString => EmptyString
  | String c r =>
      match trimEnd r with
      | EmptyString => if isWhiteSpace c then EmptyString else String c EmptyString
      | r' => String c r'
      end
  end.

(** [String.prototype.trim] *)
Definition trim (s : string) : string := trimEnd (trimStart s).

(** Value of a digit in the given radix, if it is one. *)
Definition digitValue (radix : Z) (c : ascii) : option Z :=
  let n := Z.of_N (N_of_ascii c) in
  let v :=
    if (48 <=? n) && (n <=? 57) then Some (n - 48)
    else if (97 <=? n) && (n <=? 102) then Some (n - 87)
    else if (65 <=? n) && (n <=? 70) then Some (n - 55)
    else None in
  match v with
  | Some d => if d <? radix then Some d else None
  | None => None
  end.

Fixpoint parseDigitsFrom (radix : Z) (acc : Z) (s : string) : option Z :=
  match s with
  | EmptyString => Some acc
  | String c r =>
      match digitValue radix c with
      | Some d => parseDigitsFrom radix (acc * radix + d) r
      | None => None
      end
  end.

(** One or more digits of the radix. *)
Definition parseDigits (radix : Z) (s : string) : option Z :=
  match s with
  | EmptyString => None
  | _ => parseDigitsFrom radix 0 s
  end.

(** StringToBigInt of ECMAScript: surrounding white space is ignored,
    the empty literal is 0, a decimal literal may carry a sign, and
    0x / 0o / 0b literals may not. *)
Definition StringToBigInt (str : string) : option Z :=
  match trim str with
  | EmptyString => Some 0
  | String "0" (String "x" r) | String "0" (String "X" r) => parseDigits 16 r
  | String "0" (String "o" r) | String "0" (String "O" r) => parseDigits 8 r
  | String "0" (String "b" r) | String "0" (String "B" r) => parseDigits 2 r
  | String "+" r => parseDigits 10 r
  | String "-" r => option_map Z.opp (parseDigits 10 r)
  | t => parseDigits 10 t
  end.

(** [BigInt(str)]: throws a SyntaxError when the string is no integer
    literal. *)
Definition BigInt (str : string) : Exc Z :=
  match StringToBigInt str with
  | Some z => ret z
  | None => throw ("Cannot convert " ++ str ++ " to a BigInt")
  end.

(** [BigInt.prototype.toString], as used by template literals. *)
Definition bigintToString (z : Z) : string :=
  NilZero.string_of_int (Z.to_int z).

(** Values a tool parameter can hold (numbers: the integers only). *)
#[local] Unset Elimination Schemes.
Inductive Value :=
| Undefined
| Null
| Bool (b : bool)
| Number (n : Z)
| Str (s : string)
| Object (fields : list (string * Value)).
#[local] Set Elimination Schemes.

(** ToBoolean *)
Definition truthy (v : Value) : bool :=
  match v with
  | Undefined | Null => false
  | Bool b => b
  | Number n => negb (n =? 0)
  | Str s => negb (String.eqb s "")
  | Object _ => true
  end.

Fixpoint lookup (key : string) (fields : list (string * Value)) : Value :=
  match fields with
  | [] => Undefined
  | (k, v) :: rest => if String.eqb k key then v else lookup key rest
  end.

(** Property read [v.key] for a key that no primitive wrapper defines
    (the code reads [productName] and [product_name] only). *)
Definition get (v : Value) (key : string) : Exc Value :=
  match v with
  | Undefined =>
      throw ("Cannot read properties of undefined (reading '" ++ key ++ "')")
  | Null =>
      throw ("Cannot read properties of null (reading '" ++ key ++ "')")
  | Object fields => ret (lookup key fields)
  | _ => ret Undefined
  end.

End Js.

Notation "x <- m ;; k" := (Js.bind m (fun x => k))
  (at level 61, m at next level, right associativity).

(** ** SolanaPaymentExecutor (merchant side) *)

Definition Address := string.

Inductive Scheme := exact | up_to.

Definition Scheme_eqb (a b : Scheme) : bool :=
  match a, b with
  | exact, exact | up_to, up_to => true
  | _, _ => false
  end.

Module Payload.
(** interface SolanaPaymentPayload *)
Record t := mk {
  from : Address;
  to : Address;
  amount : string;
  signature : string;
  timestamp : Z;
  network : string
}.
End Payload.

Module Requirements.
(** interface SolanaPaymentRequirements, with the two further fields the
    merchant's builders put into the object they issue. *)
Record t := mk {
  scheme : Scheme;
  network : string;
  asset : string;
  payTo : Address;
  maxAmountRequired : string;
  description : string;
  resource : option string;
  mimeType : option string;
  maxTimeoutSeconds : option Z;
  tokenMint : option Address;
  extra : Js.Value
}.
End Requirements.

Module Result.
(** interface PaymentVerificationResult *)
Record t := mk {
  isValid : bool;
  transactionSignature : option string;
  amount : option Z;
  from : option Address;
  to : option Address;
  error : option string
}.

Definition invalid (msg : string) : t :=
  mk false None None None None (Some msg).
End Result.

Module Executor.

Definition wrongAddress (expected got : Address) : string :=
  "Payment sent to wrong address. Expected: " ++ expected ++ ", Got: " ++ got.

Definition incorrectAmount (required payment : Z) : string :=
  "Incorrect payment amount. Expected: " ++ Js.bigintToString required
    ++ ", Got: " ++ Js.bigintToString payment.

Definition amountExceedsMax (required payment : Z) : string :=
  "Payment amount exceeds maximum. Max: " ++ Js.bigintToString required
    ++ ", Got: " ++ Js.bigintToString payment.

Definition wrongNetwork (expected got : string) : string :=
  "Wrong network. Expected: " ++ expected ++ ", Got: " ++ got.

Definition invalidSignatureFormat : string := "Invalid signature format".

(** The body of the [try] block of verifyPayment. *)
Definition verifyPayment_try
    (payload : Payload.t) (requirements : Requirements.t) : Js.Exc Result.t :=
  (* 1. Verify payment is to correct address *)
  if negb (String.eqb (Payload.to payload) (Requirements.payTo requirements)) then
    Js.ret (Result.invalid
              (wrongAddress (Requirements.payTo requirements) (Payload.to payload)))
  else
    (* 2. Verify amount matches requirements *)
    paymentAmount <- Js.BigInt (Payload.amount payload) ;;
    requiredAmount <- Js.BigInt (Requirements.maxAmountRequired requirements) ;;
    if Scheme_eqb (Requirements.scheme requirements) exact
       && negb (paymentAmount =? requiredAmount) then
      Js.ret (Result.invalid (incorrectAmount requiredAmount paymentAmount))
    else if Scheme_eqb (Requirements.scheme requirements) up_to
            && (paymentAmount >? requiredAmount) then
      Js.ret (Result.invalid (amountExceedsMax requiredAmount paymentAmount))
    (* 3. Verify network *)
    else if negb (String.eqb (Payload.network payload)
                             (Requirements.network requirements)) then
      Js.ret (Result.invalid
                (wrongNetwork (Requirements.network requirements)
                              (Payload.network payload)))
    (* 4. Verify signature format (basic check) *)
    else if String.eqb (Payload.signature payload) ""
            || (Z.of_nat (String.length (Payload.signature payload)) <? 64) then
      Js.ret (Result.invalid invalidSignatureFormat)
    else
      Js.ret {| Result.isValid := true;
                Result.transactionSignature := Some (Payload.signature payload);
                Result.amount := Some paymentAmount;
                Result.from := Some (Payload.from payload);
                Result.to := Some (Payload.to payload);
                Result.error := None |}.

(** verifyPayment: the [catch] clause turns a thrown error into a
    rejection carrying its message. *)
Definition verifyPayment
    (payload : Payload.t) (requirements : Requirements.t) : Result.t :=
  match verifyPayment_try payload requirements with
  | inr result => result
  | inl e => Result.invalid (Js.message e)
  end.

End Executor.

(** ** SolanaWallet (client side): confirmation polling and transfers *)

Module Wallet.

Inductive ConfirmationStatus := processed | confirmed | finalized.

(** One entry of the array getSignatureStatuses answers with; [err] is
    the JSON text of the execution error, when there is one. *)
Record SignatureStatus := mkStatus {
  confirmationStatus : option ConfirmationStatus;
  err : option string
}.

(** What one [getSignatureStatuses([signature]).send()] does: the request
    fails, or it answers with [value] (possibly null, and with null
    entries for unknown signatures). *)
Inductive StatusReply :=
| StatusThrows (e : Js.Error)
| StatusValue (value : option (list (option SignatureStatus))).

Definition Blockhash := string.

Record TransferSolInstruction := mkInstruction {
  source : Address;
  destination : Address;
  lamportsAmount : Z
}.

Record TransactionMessage := mkMessage {
  version : Z;
  feePayer : option Address;
  lifetime : option Blockhash;
  instructions : list TransferSolInstruction
}.

Record SignedTransaction := mkSigned {
  signedMessage : TransactionMessage;
  txSignature : string
}.

(** The chain SDK and the RPC node as one invocation sees them.  Every
    call may fail; the n-th status query of a run gets the n-th reply. *)
Record Sdk := mkSdk {
  getLatestBlockhash : Js.Exc Blockhash;
  lamports : Z -> Js.Exc Z;
  signTransactionMessageWithSigners : TransactionMessage -> Js.Exc SignedTransaction;
  sendTransaction : SignedTransaction -> Js.Exc unit;
  getSignatureStatuses : nat -> string -> StatusReply
}.

(** What the wallet does to the outside world, in order. *)
Inductive Event :=
| EvGetLatestBlockhash
| EvSendTransaction (tx : SignedTransaction)
| EvGetSignatureStatuses (signature : string)
| EvSleep (ms : Z).

Record State := mkState {
  polls : nat;          (* status queries made so far *)
  trace : list Event    (* oldest event first *)
}.

Definition init : State := mkState 0 [].

Inductive Outcome (A : Type) :=
| Returns (a : A)
| Throws (e : Js.Error)
| OutOfFuel.
Arguments Returns {A} a.
Arguments Throws {A} e.
Arguments OutOfFuel {A}.

(** State, exceptions and fuel. *)
Definition M (A : Type) : Type := State -> Outcome A * State.

Definition ret {A} (a : A) : M A := fun st => (Returns a, st).
Definition throw {A} (e : Js.Error) : M A := fun st => (Throws e, st).
Definition outOfFuel {A} : M A := fun st => (OutOfFuel, st).

Definition bind {A B} (m : M A) (k : A -> M B) : M B :=
  fun st =>
    match m st with
    | (Returns a, st') => k a st'
    | (Throws e, st') => (Throws e, st')
    | (OutOfFuel, st') => (OutOfFuel, st')
    end.

(** try { m } catch (error) { handler error } *)
Definition tryCatch {A} (m : M A) (handler : Js.Error -> M A) : M A :=
  fun st =>
    match m st with
    | (Throws e, st') => handler e st'
    | r => r
    end.

Definition emit (e : Event) : M unit :=
  fun st => (Returns tt, mkState (polls st) (trace st ++ [e])).

Definition lift {A} (x : Js.Exc A) : M A :=
  match x with
  | inl e => throw e
  | inr a => ret a
  end.

Declare Scope wallet_scope.
Delimit Scope wallet_scope with wallet.
Notation "x <- m ;; k" := (bind m (fun x => k))
  (at level 61, m at next level, right associativity) : wallet_scope.
Notation "m ;;; k" := (bind m (fun _ => k))
  (at level 61, right associativity) : wallet_scope.

Open Scope wallet_scope.

(** await this.rpc.getSignatureStatuses([signature], ...).send() *)
Definition rpcGetSignatureStatuses (sdk : Sdk) (signature : string)
  : M (option (list (option SignatureStatus))) :=
  fun st =>
    let st' := mkState (S (polls st)) (trace st ++ [EvGetSignatureStatuses signature]) in
    match getSignatureStatuses sdk (polls st) signature with
    | StatusThrows e => (Throws e, st')
    | StatusValue value => (Returns value, st')
    end.

(** await new Promise(resolve => setTimeout(resolve, ms)) *)
Definition sleep (ms : Z) : M unit := emit (EvSleep ms).

Definition isTerminal (c : option ConfirmationStatus) : bool :=
  match c with
  | Some confirmed | Some finalized => true
  | _ => false
  end.

(** The [try] block of one iteration of the polling loop: [true] when it
    executes [return], [false] when it falls through. *)
Definition pollOnce (sdk : Sdk) (signature : string) : M bool :=
  value <- rpcGetSignatureStatuses sdk signature ;;
  match value with
  | Some (Some status :: _) =>
      if isTerminal (confirmationStatus status) then
        match err status with
        | Some e => throw (Js.mkError ("Transaction failed: " ++ e))
        | None => ret true
        end
      else ret false
  | _ => ret false
  end.

Definition confirmationTimeout : Js.Error :=
  Js.mkError "Transaction confirmation timeout".

(** The [while] loop of confirmTransaction, from a given value of
    [retries]; [fuel] bounds the number of iterations. *)
Fixpoint confirmLoop (fuel : nat) (sdk : Sdk) (signature : string)
    (maxRetries retries : Z) : M unit :=
  if retries <? maxRetries then
    match fuel with
    | O => outOfFuel
    | S fuel' =>
        returned <-
          tryCatch (pollOnce sdk signature)
            (fun error =>
               if retries =? maxRetries - 1 then throw error else ret false) ;;
        if returned then ret tt
        else
          (* Wait 1 second before retry *)
          sleep 1000 ;;;
          confirmLoop fuel' sdk signature maxRetries (retries + 1)
    end
  else throw confirmationTimeout.

Definition defaultMaxRetries : Z := 30.

(** confirmTransaction(signature, maxRetries = 30) *)
Definition confirmTransaction (sdk : Sdk) (signature : string)
    (maxRetries : option Z) : M unit :=
  let maxRetries := match maxRetries with Some m => m | None => defaultMaxRetries end in
  confirmLoop (Z.to_nat maxRetries) sdk signature maxRetries 0.

Record TransferResult := mkTransfer {
  success : bool;
  signature : option string;
  error : option string
}.

(** transferSol(destination, amount) of the wallet whose address is
    [self]. *)
Definition transferSol (sdk : Sdk) (self : Address)
    (destination : Address) (amount : Z) : M TransferResult :=
  tryCatch
    ((* Get recent blockhash *)
     emit EvGetLatestBlockhash ;;;
     latestBlockhash <- lift (getLatestBlockhash sdk) ;;
     (* Create transfer instruction *)
     amount' <- lift (lamports sdk amount) ;;
     let transferInstruction := mkInstruction self destination amount' in
     (* Build transaction message *)
     let transactionMessage :=
       mkMessage 0 (Some self) (Some latestBlockhash) [transferInstruction] in
     (* Sign transaction *)
     signedTransaction <-
       lift (signTransactionMessageWithSigners sdk transactionMessage) ;;
     let signature := txSignature signedTransaction in
     (* Send transaction *)
     emit (EvSendTransaction signedTransaction) ;;;
     lift (sendTransaction sdk signedTransaction) ;;;
     (* Confirm transaction *)
     confirmTransaction sdk signature None ;;;
     ret (mkTransfer true (Some signature) None))
    (fun error => ret (mkTransfer false None (Some (Js.message error)))).

Close Scope wallet_scope.

(** *** Vocabulary for statements about a run *)

(** The reply shows a confirmed or finalized transaction without error. *)
Definition observesSuccess (r : StatusReply) : bool :=
  match r with
  | StatusValue (Some (Some status :: _)) =>
      isTerminal (confirmationStatus status)
      && match err status with None => true | Some _ => false end
  | _ => false
  end.

(** The reply shows a terminal status: confirmed or finalized, with or
    without an execution error. *)
Definition observesTerminal (r : StatusReply) : bool :=
  match r with
  | StatusValue (Some (Some status :: _)) => isTerminal (confirmationStatus status)
  | _ => false
  end.

Definition replyThrows (r : StatusReply) : bool :=
  match r with
  | StatusThrows _ => true
  | StatusValue _ => false
  end.

Definition isQuery (e : Event) : bool :=
  match e with EvGetSignatureStatuses _ => true | _ => false end.

Definition isSleep (e : Event) : bool :=
  match e with EvSleep _ => true | _ => false end.

Definition isSend (e : Event) : bool :=
  match e with EvSendTransaction _ => true | _ => false end.

Definition count (p : Event -> bool) (t : list Event) : nat :=
  List.length (List.filter p t).

(** [n] rounds of "query, then sleep one second". *)
Fixpoint rounds (signature : string) (n : nat) : list Event :=
  match n with
  | O => []
  | S n' => EvGetSignatureStatuses signature :: EvSleep 1000 :: rounds signature n'
  end.

(** The number of attempts a call allows: its argument, or the default. *)
Definition attempts (maxRetries : option Z) : Z :=
  match maxRetries with
  | Some m => m
  | None => defaultMaxRetries
  end.

(** The error one poll raises inside the [try] block, if it raises one:
    the request's own error, or the execution error of a transaction
    seen confirmed or finalized. *)
Definition thrownBy (r : StatusReply) : option Js.Error :=
  match r with
  | StatusThrows e => Some e
  | StatusValue (Some (Some status :: _)) =>
      if isTerminal (confirmationStatus status) then
        match err status with
        | Some e => Some (Js.mkError ("Transaction failed: " ++ e))
        | None => None
        end
      else None
  | StatusValue _ => None
  end.

Definition afterQuery (signature : string) (st : State) : State :=
  mkState (S (polls st)) (trace st ++ [EvGetSignatureStatuses signature]).

Definition afterSleep (st : State) : State :=
  mkState (polls st) (trace st ++ [EvSleep 1000]).

(** How a run of [n] polls ends when none of them saw a terminal
    status: with the error of the last query if that query failed, and
    with the timeout otherwise. *)
Definition exhausted (sdk : Sdk) (signature : string) (st : State) (n : nat)
    : Outcome unit * State :=
  match n with
  | O => (Throws confirmationTimeout, st)
  | S n' =>
      match getSignatureStatuses sdk (polls st + n') signature with
      | StatusThrows e =>
          (Throws e,
           mkState (polls st + n)
                   (trace st ++ rounds signature n' ++ [EvGetSignatureStatuses signature]))
      | StatusValue _ =>
          (Throws confirmationTimeout,
           mkState (polls st + n) (trace st ++ rounds signature n))
      end
  end.

End Wallet.

(** ** Merchant agent: the requirement builders *)

Module Merchant.

(** Module-level configuration of agent.ts.  [solanaMerchantAddress] is
    assigned by an asynchronous initialiser and is [None] until then. *)
Record Config := mkConfig {
  WALLET_ADDRESS : string;
  NETWORK : string;
  USDC_CONTRACT : string;
  solanaMerchantAddress : option Address
}.

(** What a tool throws: a plain [Error], or the exception that carries
    the payment requirements to the server executor. *)
Inductive Thrown :=
| ThrownError (e : Js.Error)
| x402PaymentRequiredException (message : string) (requirements : Requirements.t).

(** Returns a fixed price of 1 USDC for all products:
    1 USDC = 1,000,000 atomic units (USDC has 6 decimals). *)
Definition getProductPrice (productName : string) : string := "1000000".

Definition padLeft6 (s : string) : string :=
  string_of_list_ascii
    (List.repeat "0"%char (6 - String.length s)%nat ++ list_ascii_of_string s).

(** [(parseInt(price) / 1_000_000).toFixed(6)] for a price that is a
    decimal literal, as the price table's is. *)
Definition priceUSDC (price : string) : string :=
  match Js.parseDigits 10 price with
  | Some n =>
      Js.bigintToString (n / 1000000) ++ "." ++ padLeft6 (Js.bigintToString (n mod 1000000))
  | None => "NaN"
  end.

(** [params.productName || params.product_name || params] *)
Definition productNameOf (params : Js.Value) : Js.Exc Js.Value :=
  a <- Js.get params "productName" ;;
  if Js.truthy a then Js.ret a
  else
    b <- Js.get params "product_name" ;;
    if Js.truthy b then Js.ret b else Js.ret params.

(** [!productName || typeof productName !== 'string' ||
    productName.trim() === ''], with the string when the test fails. *)
Definition validProductName (productName : Js.Value) : option string :=
  match productName with
  | Js.Str s =>
      if negb (Js.truthy productName) || String.eqb (Js.trim s) "" then None
      else Some s
  | _ => None
  end.

Definition emptyProductName : Js.Error :=
  Js.mkError "Product name cannot be empty.".

Definition productExtra (name version : string) (chain : list (string * Js.Value))
    (productName : string) : Js.Value :=
  Js.Object
    ([("name", Js.Str name); ("version", Js.Str version)] ++ chain ++
     [("product",
       Js.Object [("sku", Js.Str (productName ++ "_sku"));
                  ("name", Js.Str productName);
                  ("version", Js.Str "1")])]).

(** Get product details and request payment (Ethereum/Base Sepolia). *)
Definition getProductDetailsAndRequestPayment
    (cfg : Config) (params : Js.Value) : Thrown :=
  match productNameOf params with
  | inl e => ThrownError e
  | inr v =>
      match validProductName v with
      | None => ThrownError emptyProductName
      | Some productName =>
          let price := getProductPrice productName in
          let requirements :=
            {| Requirements.scheme := exact;
               Requirements.network := NETWORK cfg;
               Requirements.asset := USDC_CONTRACT cfg;
               Requirements.payTo := WALLET_ADDRESS cfg;
               Requirements.maxAmountRequired := price;
               Requirements.description := "Payment for: " ++ productName;
               Requirements.resource :=
                 Some ("https://example.com/product/" ++ productName);
               Requirements.mimeType := Some "application/json";
               Requirements.maxTimeoutSeconds := Some 1200;
               Requirements.tokenMint := None;
               Requirements.extra := productExtra "USDC" "2" [] productName |} in
          x402PaymentRequiredException
            ("Payment of " ++ priceUSDC price ++ " USDC required for " ++ productName)
            requirements
      end
  end.

(** [(0.1 * 1e9).toString()]: the product is the double 100000000. *)
Definition priceLamports : string := "100000000".

Definition walletNotInitialized : Js.Error :=
  Js.mkError "Solana wallet not initialized".

(** Get product details and request Solana payment. *)
Definition getProductDetailsAndRequestSolanaPayment
    (cfg : Config) (params : Js.Value) : Thrown :=
  match productNameOf params with
  | inl e => ThrownError e
  | inr v =>
      match validProductName v with
      | None => ThrownError emptyProductName
      | Some productName =>
          (* Wait for wallet initialization *)
          match solanaMerchantAddress cfg with
          | None => ThrownError walletNotInitialized
          | Some merchantAddress =>
              if String.eqb merchantAddress "" then ThrownError walletNotInitialized
              else
                let requirements :=
                  {| Requirements.scheme := exact;
                     Requirements.network := "solana-devnet";
                     Requirements.asset := "SOL";
                     Requirements.payTo := merchantAddress;
                     Requirements.maxAmountRequired := priceLamports;
                     Requirements.description := "Payment for: " ++ productName;
                     Requirements.resource :=
                       Some ("https://example.com/product/" ++ productName);
                     Requirements.mimeType := Some "application/json";
                     Requirements.maxTimeoutSeconds := Some 1200;
                     Requirements.tokenMint := None;
                     Requirements.extra :=
                       productExtra "SOL" "2" [("blockchain", Js.Str "solana")]
                                    productName |} in
                x402PaymentRequiredException
                  ("Payment of 0.1 SOL required for " ++ productName)
                  requirements
          end
      end
  end.

(** *** Vocabulary for statements about the builders *)

(** The call names a product: the resolved name is a string that is not
    empty and not only white space. *)
Definition namesProduct (params : Js.Value) : bool :=
  match productNameOf params with
  | inr v => match validProductName v with Some _ => true | None => false end
  | inl _ => false
  end.

(** The merchant's Solana address has been assigned (and is not empty). *)
Definition walletReady (cfg : Config) : bool :=
  match solanaMerchantAddress cfg with
  | Some merchantAddress => negb (String.eqb merchantAddress "")
  | None => false
  end.

(** The builder issued a requirement rather than failing. *)
Definition issued (t : Thrown) : option Requirements.t :=
  match t with
  | x402PaymentRequiredException _ requirements => Some requirements
  | ThrownError _ => None
  end.

End Merchant.

(** ** The specification's vocabulary *)

Module Spec.

(** The verifier's checks in the order the specification lists them,
    each with the reason reported when it fails; [paid] and [required]
    are the two amounts as integers. *)
Definition checks (payload : Payload.t) (requirements : Requirements.t)
    (paid required : Z) : list (bool * string) :=
  [ (String.eqb (Payload.to payload) (Requirements.payTo requirements),
     Executor.wrongAddress (Requirements.payTo requirements) (Payload.to payload));
    (match Requirements.scheme requirements with
     | exact => paid =? required
     | up_to => paid <=? required
     end,
     match Requirements.scheme requirements with
     | exact => Executor.incorrectAmount required paid
     | up_to => Executor.amountExceedsMax required paid
     end);
    (String.eqb (Payload.network payload) (Requirements.network requirements),
     Executor.wrongNetwork (Requirements.network requirements)
                           (Payload.network payload));
    ((64 <=? String.length (Payload.signature payload))%nat,
     Executor.invalidSignatureFormat) ].

(** Reason of the first check that fails, if any does. *)
Fixpoint firstFailure (cs : list (bool * string)) : option string :=
  match cs with
  | [] => None
  | (true, _) :: rest => firstFailure rest
  | (false, reason) :: _ => Some reason
  end.

(** The payload was created after the requirement, issued at
    [issuedAt] (milliseconds), had timed out. *)
Definition expired (issuedAt : Z) (requirements : Requirements.t)
    (payload : Payload.t) : bool :=
  match Requirements.maxTimeoutSeconds requirements with
  | Some seconds => issuedAt + 1000 * seconds <? Payload.timestamp payload
  | None => false
  end.

(** The same payload with another creation time, and the same
    requirement with another validity window. *)
Definition atTime (time : Z) (payload : Payload.t) : Payload.t :=
  {| Payload.from := Payload.from payload;
     Payload.to := Payload.to payload;
     Payload.amount := Payload.amount payload;
     Payload.signature := Payload.signature payload;
     Payload.timestamp := time;
     Payload.network := Payload.network payload |}.

Definition withTimeout (seconds : option Z) (requirements : Requirements.t)
    : Requirements.t :=
  {| Requirements.scheme := Requirements.scheme requirements;
     Requirements.network := Requirements.network requirements;
     Requirements.asset := Requirements.asset requirements;
     Requirements.payTo := Requirements.payTo requirements;
     Requirements.maxAmountRequired := Requirements.maxAmountRequired requirements;
     Requirements.description := Requirements.description requirements;
     Requirements.resource := Requirements.resource requirements;
     Requirements.mimeType := Requirements.mimeType requirements;
     Requirements.maxTimeoutSeconds := seconds;
     Requirements.tokenMint := Requirements.tokenMint requirements;
     Requirements.extra := Requirements.extra requirements |}.

(** What an accepted payload is answered with. *)
Definition accepted (payload : Payload.t) (paid : Z) : Result.t :=
  {| Result.isValid := true;
     Result.transactionSignature := Some (Payload.signature payload);
     Result.amount := Some paid;
     Result.from := Some (Payload.from payload);
     Result.to := Some (Payload.to payload);
     Result.error := None |}.

End Spec.

(** ** Sample data *)

Module Sample.

(** A hex-encoded 64-byte signature: 128 characters. *)
Definition signature : string :=
  "3045022100a1b2c3d4e5f60718293a4b5c6d7e8f900112233445566778899aabbc"
  ++ "cddeeff00112233445566778899aabbccddeeff0a1b2c3d4e5f60718293a4b5c".

Definition requirement (s : Scheme) (required : string) : Requirements.t :=
  {| Requirements.scheme := s;
     Requirements.network := "net-A";
     Requirements.asset := "SOL";
     Requirements.payTo := "M1";
     Requirements.maxAmountRequired := required;
     Requirements.description := "Payment for: banana";
     Requirements.resource := None;
     Requirements.mimeType := None;
     Requirements.maxTimeoutSeconds := Some 1200;
     Requirements.tokenMint := None;
     Requirements.extra := Js.Undefined |}.

Definition payload (recipient amount network : string) (time : Z) : Payload.t :=
  {| Payload.from := "C1";
     Payload.to := recipient;
     Payload.amount := amount;
     Payload.signature := signature;
     Payload.timestamp := time;
     Payload.network := network |}.

Definition config : Merchant.Config :=
  {| Merchant.WALLET_ADDRESS := "0x1111111111111111111111111111111111111111";
     Merchant.NETWORK := "base-sepolia";
     Merchant.USDC_CONTRACT := "0x036CbD53842c5426634e7929541eC2318f3dCF7e";
     Merchant.solanaMerchantAddress := Some "M1" |}.

(** The configuration before the Solana wallet has been created. *)
Definition configWithoutWallet : Merchant.Config :=
  {| Merchant.WALLET_ADDRESS := "0x1111111111111111111111111111111111111111";
     Merchant.NETWORK := "base-sepolia";
     Merchant.USDC_CONTRACT := "0x036CbD53842c5426634e7929541eC2318f3dCF7e";
     Merchant.solanaMerchantAddress := None |}.

Definition banana : Js.Value := Js.Object [("productName", Js.Str "banana")].

Definition pending : Wallet.StatusReply := Wallet.StatusValue (Some [None]).

Definition success : Wallet.StatusReply :=
  Wallet.StatusValue
    (Some [Some (Wallet.mkStatus (Some Wallet.confirmed) None)]).

(** An SDK whose calls all succeed and whose node answers the status
    queries with [replies]. *)
Definition sdk (replies : nat -> Wallet.StatusReply) : Wallet.Sdk :=
  {| Wallet.getLatestBlockhash := inr "blockhash";
     Wallet.lamports := fun amount => inr amount;
     Wallet.signTransactionMessageWithSigners :=
       fun m => inr (Wallet.mkSigned m "sig");
     Wallet.sendTransaction := fun _ => inr tt;
     Wallet.getSignatureStatuses := fun n _ => replies n |}.

(** A node that cannot be reached: every status query fails. *)
Definition unreachable : Wallet.Sdk :=
  sdk (fun _ => Wallet.StatusThrows (Js.mkError "fetch failed")).

(** A node that sees the transaction confirmed at the third query. *)
Definition confirmsThird : Wallet.Sdk :=
  sdk (fun n => if (n <? 2)%nat then pending else success).

(** A node that never sees the transaction. *)
Definition neverSeen : Wallet.Sdk := sdk (fun _ => pending).

End Sample.

(** ** Further JavaScript primitives *)

Module JsMore.

(** [String(v)], as template literals apply it (numbers: integers below
    10^21, which print in plain decimal). *)
Definition toString (v : Js.Value) : string :=
  match v with
  | Js.Undefined => "undefined"
  | Js.Null => "null"
  | Js.Bool true => "true"
  | Js.Bool false => "false"
  | Js.Number n => Js.bigintToString n
  | Js.Str s => s
  | Js.Object _ => "[object Object]"
  end.

(** [BigInt(v)] for a value of any type. *)
Definition toBigInt (v : Js.Value) : Js.Exc Z :=
  match v with
  | Js.Undefined => Js.throw "Cannot convert undefined to a BigInt"
  | Js.Null => Js.throw "Cannot convert null to a BigInt"
  | Js.Bool true => Js.ret 1
  | Js.Bool false => Js.ret 0
  | Js.Number n => Js.ret n
  | Js.Str s => Js.BigInt s
  | Js.Object _ => Js.throw "Cannot convert [object Object] to a BigInt"
  end.

(** Optional chaining [v?.key]. *)
Definition optGet (v : Js.Value) (key : string) : Js.Value :=
  match v with
  | Js.Object fields => Js.lookup key fields
  | _ => Js.Undefined
  end.

(** [a || b] *)
Definition or (a b : Js.Value) : Js.Value := if Js.truthy a then a else b.

(** Template text of an optional string field. *)
Definition show (s : option string) : string :=
  match s with
  | Some s => s
  | None => "undefined"
  end.

Definition hexDigit (n : N) : ascii :=
  (if n <? 10 then ascii_of_N (48 + n) else ascii_of_N (87 + n))%N.

(** [Buffer.from(bytes).toString('hex')] *)
Fixpoint hex (bytes : list Byte.byte) : string :=
  match bytes with
  | [] => EmptyString
  | b :: rest =>
      String (hexDigit (Byte.to_N b / 16))
        (String (hexDigit (Byte.to_N b mod 16)) (hex rest))
  end.

Definition newline : string := String (ascii_of_N 10) EmptyString.

End JsMore.

(** ** Merchant wallet and on-chain verification *)

Module MerchantWallet.

(** The part of a fetched transaction the wallet reads. *)
Record TransactionInfo := mkInfo { infoBlockTime : option Z }.

(** What [getTransaction(signature, ...).send()] resolves to: nothing, or
    a response whose [value] may be null. *)
Record Response := mkResponse { value : option TransactionInfo }.

Record Verification := mkVerification {
  confirmed : bool;
  amount : option Z;
  from : option Address;
  to : option Address;
  blockTime : option Z
}.

Definition unconfirmed : Verification := mkVerification false None None None None.

(** Verify that a transaction exists and was confirmed.  An error of the
    request, also that of destructuring an empty answer, is caught. *)
Definition verifyTransaction
    (getTransaction : string -> Js.Exc (option Response)) (signature : string)
    : Verification :=
  match getTransaction signature with
  | inl _ => unconfirmed
  | inr None => unconfirmed
  | inr (Some response) =>
      match value response with
      | None => unconfirmed
      | Some info =>
          (* Transaction exists and is confirmed *)
          {| confirmed := true;
             amount := None;
             from := None;
             to := None;
             blockTime :=
               match infoBlockTime info with
               | Some t => if t =? 0 then None else Some t
               | None => None
               end |}
      end
  end.

End MerchantWallet.

Module OnChain.

Definition notConfirmed : string := "Transaction not found or not confirmed".

(** verifyOnChainTransaction of the executor, over the wallet it holds. *)
Definition verifyOnChainTransaction
    (verifyTransaction : string -> Js.Exc MerchantWallet.Verification)
    (txSignature : string) (expectedAmount : Z) (expectedFrom : option Address)
    : Result.t :=
  match verifyTransaction txSignature with
  | inl e => Result.invalid (Js.message e)
  | inr verification =>
      if negb (MerchantWallet.confirmed verification) then
        Result.invalid notConfirmed
      else
        {| Result.isValid := true;
           Result.transactionSignature := Some txSignature;
           Result.amount := MerchantWallet.amount verification;
           Result.from := MerchantWallet.from verification;
           Result.to := MerchantWallet.to verification;
           Result.error := None |}
  end.

(** The executor of the merchant agent, whose wallet is the merchant
    wallet above. *)
Definition verify
    (getTransaction : string -> Js.Exc (option MerchantWallet.Response))
    (txSignature : string) (expectedAmount : Z) (expectedFrom : option Address)
    : Result.t :=
  verifyOnChainTransaction
    (fun signature => inr (MerchantWallet.verifyTransaction getTransaction signature))
    txSignature expectedAmount expectedFrom.

End OnChain.

(** ** Client wallet: airdrops *)

Module Airdrop.

Import Wallet.
Open Scope wallet_scope.

(** requestAirdrop(amount) of the wallet whose address is [self];
    [rpcRequestAirdrop] is the node's answer to the airdrop request. *)
Definition requestAirdrop (sdk : Sdk)
    (rpcRequestAirdrop : Address -> Z -> Js.Exc string)
    (self : Address) (amount : Z) : M string :=
  tryCatch
    (amount' <- lift (lamports sdk amount) ;;
     signature <- lift (rpcRequestAirdrop self amount') ;;
     (* Wait for confirmation *)
     confirmTransaction sdk signature None ;;;
     ret signature)
    (fun error => throw error).

Close Scope wallet_scope.

End Airdrop.

(** ** The payment flow script of the client agent *)

Module PaymentFlow.

(** interface SolanaPaymentRequirements of the script: the fields of the
    executor's interface without [asset]. *)
Record Requirements := mkRequirements {
  scheme : Scheme;
  network : string;
  payTo : Address;
  maxAmountRequired : string;
  description : string;
  resource : string;
  tokenMint : option Address;
  extra : Js.Value
}.

(** Merchant: create payment requirements. *)
Definition createSolanaPaymentRequirements
    (merchantAddress : Address) (productName : string) (priceInLamports : Z)
    : Requirements :=
  {| scheme := exact;
     network := "solana-devnet";
     payTo := merchantAddress;
     maxAmountRequired := Js.bigintToString priceInLamports;
     description := "Payment for: " ++ productName;
     resource := "https://example.com/product/" ++ productName;
     tokenMint := None;
     extra :=
       Js.Object
         [("product",
           Js.Object [("name", Js.Str productName);
                      ("sku", Js.Str (productName ++ "_sku"));
                      ("version", Js.Str "1")])] |}.

(** The object whose JSON text the client signs. *)
Record Intent := mkIntent {
  intentTo : Address;
  intentAmount : string;
  intentTimestamp : Z;
  intentNetwork : string
}.

(** Client: sign payment.  [signData] is the wallet's signature over the
    encoded JSON text of the intent; [now1] and [now2] are the two
    readings of the clock. *)
Definition signSolanaPayment
    (signData : Intent -> Js.Exc (list Byte.byte)) (clientAddress : Address)
    (now1 now2 : Z) (requirements : Requirements) : Js.Exc Payload.t :=
  signature <-
    signData (mkIntent (payTo requirements) (maxAmountRequired requirements)
                now1 (network requirements)) ;;
  let signatureHex := JsMore.hex signature in
  Js.ret {| Payload.from := clientAddress;
            Payload.to := payTo requirements;
            Payload.amount := maxAmountRequired requirements;
            Payload.signature := signatureHex;
            Payload.timestamp := now2;
            Payload.network := network requirements |}.

(** Merchant: verify payment signature (its format only). *)
Definition verifySolanaPaymentSignature (payload : Payload.t) : bool :=
  (0 <? String.length (Payload.signature payload))%nat
  && (String.length (Payload.signature payload) =? 128)%nat.

(** A requirement object of the merchant agent, seen through the
    script's interface. *)
Definition ofIssued (r : Requirements.t) : Requirements :=
  {| scheme := Requirements.scheme r;
     network := Requirements.network r;
     payTo := Requirements.payTo r;
     maxAmountRequired := Requirements.maxAmountRequired r;
     description := Requirements.description r;
     resource := match Requirements.resource r with Some s => s | None => "" end;
     tokenMint := Requirements.tokenMint r;
     extra := Requirements.extra r |}.

End PaymentFlow.

(** ** The dual-chain client agent *)

Module Client.

Import Wallet.
Open Scope wallet_scope.

(** Number formatting, which is floating point and left open:
    [(Number(v) / 1e9).toFixed(digits)] and
    [(Number(amount) / 1_000_000).toFixed(6)]. *)
Record Format := mkFormat {
  solDisplay : nat -> Js.Value -> string;
  usdcDisplay : Z -> string
}.

Inductive Blockchain := ethereum | solana.

(** The payment-required object kept with a pending payment. *)
Record PaymentRequired := mkPaymentRequired {
  accepts : list Requirements.t
}.

Record PendingPayment := mkPending {
  agentUrl : string;
  agentName : string;
  requirements : PaymentRequired;
  taskId : option string;
  contextId : option string;
  blockchain : option Blockchain
}.

(** interface AgentState *)
Record AgentState := mkAgent {
  sessionId : option string;
  pendingPayment : option PendingPayment
}.

Definition clearPending (state : AgentState) : AgentState :=
  mkAgent (sessionId state) None.

(** A tool acts on the agent's state and on the wallet; the state changes
    only on paths that return. *)
Definition Tool (A : Type) : Type := AgentState -> M (A * AgentState).

(** [paymentOption.extra?.product?.name || 'product'] *)
Definition productNameOf (paymentOption : Requirements.t) : Js.Value :=
  JsMore.or
    (JsMore.optGet (JsMore.optGet (Requirements.extra paymentOption) "product") "name")
    (Js.Str "product").

Definition solanaCompleted (productName amountSOL signature : string) : string :=
  "✅ Solana payment completed!" ++ JsMore.newline
  ++ JsMore.newline
  ++ "**Transaction Details:**" ++ JsMore.newline
  ++ "- Product: " ++ productName ++ JsMore.newline
  ++ "- Amount: " ++ amountSOL ++ " SOL" ++ JsMore.newline
  ++ "- Transaction: " ++ signature ++ JsMore.newline
  ++ "- View: https://explorer.solana.com/tx/" ++ signature ++ "?cluster=devnet".

(** processSolanaPayment(paymentOption): a simple SOL transfer of the
    required amount to the requirement's recipient. *)
Definition processSolanaPayment (fmt : Format) (sdk : Sdk) (self : Address)
    (paymentOption : Requirements.t) : Tool string :=
  fun state =>
    amount <- lift (Js.BigInt (Requirements.maxAmountRequired paymentOption)) ;;
    let productName := productNameOf paymentOption in
    let recipientAddress := Requirements.payTo paymentOption in
    transferResult <- transferSol sdk self recipientAddress amount ;;
    if negb (success transferResult) then
      ret ("Solana payment failed: " ++ JsMore.show (error transferResult), state)
    else
      let amountSOL := solDisplay fmt 6 (Js.Number amount) in
      let result :=
        solanaCompleted (JsMore.toString productName) amountSOL
          (JsMore.show (signature transferResult)) in
      ret (result, clearPending state).

(** Cancel pending payment. *)
Definition cancelPayment : Tool string :=
  fun state =>
    match pendingPayment state with
    | None => ret ("No pending payment to cancel.", state)
    | Some _ => ret ("Payment cancelled.", clearPending state)
    end.

(** The wallet of the Ethereum side, whose source is not part of the
    agent: signing a payment and executing the token transfer. *)
Record EthResult := mkEthResult {
  ethSuccess : bool;
  txHash : option string;
  ethError : option string
}.

Record EthWallet := mkEthWallet {
  signPayment : PaymentRequired -> Js.Exc unit;
  executePayment : string -> Address -> Z -> Js.Exc EthResult
}.

Definition ethereumCompleted (productName amountUSDC txHash : string) : string :=
  "✅ Ethereum payment completed!" ++ JsMore.newline
  ++ JsMore.newline
  ++ "**Transaction Details:**" ++ JsMore.newline
  ++ "- Product: " ++ productName ++ JsMore.newline
  ++ "- Amount: " ++ amountUSDC ++ " USDC" ++ JsMore.newline
  ++ "- Transaction: " ++ txHash ++ JsMore.newline
  ++ "- View: https://sepolia.basescan.org/tx/" ++ txHash.

(** processEthereumPayment(paymentOption).  Notifying the merchant is an
    HTTP request whose failure is caught and whose answer is not used. *)
Definition processEthereumPayment (fmt : Format) (eth : EthWallet)
    (paymentOption : Requirements.t) : Tool string :=
  fun state =>
    let tokenAddress := Requirements.asset paymentOption in
    let merchantAddress := Requirements.payTo paymentOption in
    amount <- lift (Js.BigInt (Requirements.maxAmountRequired paymentOption)) ;;
    let productName := productNameOf paymentOption in
    (* Sign payment *)
    match pendingPayment state with
    | None =>
        throw (Js.mkError "Cannot read properties of undefined (reading 'requirements')")
    | Some pending =>
        lift (signPayment eth (requirements pending)) ;;;
        (* Execute transfer *)
        transferResult <- lift (executePayment eth tokenAddress merchantAddress amount) ;;
        if negb (ethSuccess transferResult) then
          ret ("Payment transfer failed: " ++ JsMore.show (ethError transferResult),
               state)
        else
          let amountUSDC := usdcDisplay fmt amount in
          let result :=
            ethereumCompleted (JsMore.toString productName) amountUSDC
              (JsMore.show (txHash transferResult)) in
          ret (result, clearPending state)
    end.

(** Confirm and process payment (Ethereum/Solana). *)
Definition confirmPayment (fmt : Format) (eth : EthWallet) (sdk : Sdk)
    (self : Address) : Tool string :=
  fun state =>
    match pendingPayment state with
    | None => ret ("No pending payment to confirm.", state)
    | Some pending =>
        tryCatch
          (match accepts (requirements pending) with
           | [] =>
               (* accepts[0] is undefined; the first field read throws *)
               match blockchain pending with
               | Some solana =>
                   throw (Js.mkError
                            "Cannot read properties of undefined (reading 'maxAmountRequired')")
               | _ =>
                   throw (Js.mkError
                            "Cannot read properties of undefined (reading 'asset')")
               end
           | paymentOption :: _ =>
               match blockchain pending with
               | Some solana => processSolanaPayment fmt sdk self paymentOption state
               | _ => processEthereumPayment fmt eth paymentOption state
               end
           end)
          (fun error =>
             ret ("Payment processing failed: " ++ Js.message error, state))
    end.

(** Parameters of the transfer tool: [recipient], when given, is a
    string. *)
Record TransferParams := mkTransferParams {
  recipient : option Address;
  transferAmount : Js.Value
}.

Definition transferSuccessful (amountSOL recipient signature : string) : string :=
  "✅ Transfer successful: " ++ amountSOL ++ " SOL to " ++ recipient ++ JsMore.newline
  ++ "Transaction: " ++ signature ++ JsMore.newline
  ++ "View: https://explorer.solana.com/tx/" ++ signature ++ "?cluster=devnet".

(** Transfer SOL to another address. *)
Definition transferSolana (fmt : Format) (sdk : Sdk) (self : Address)
    (params : TransferParams) : M string :=
  match recipient params with
  | None => ret "Please provide both recipient address and amount"
  | Some to =>
      if String.eqb to "" || negb (Js.truthy (transferAmount params)) then
        ret "Please provide both recipient address and amount"
      else
        tryCatch
          (amount <- lift (JsMore.toBigInt (transferAmount params)) ;;
           result <- transferSol sdk self to amount ;;
           if success result then
             let amountSOL := solDisplay fmt 6 (transferAmount params) in
             ret (transferSuccessful amountSOL to (JsMore.show (signature result)))
           else
             ret ("❌ Transfer failed: " ++ JsMore.show (error result)))
          (fun error => ret ("❌ Transfer failed: " ++ Js.message error))
  end.

Definition defaultAirdrop : Z := 2000000000.

Definition airdropRequested (amountSOL signature : string) : string :=
  "✅ Airdrop requested: " ++ amountSOL ++ " SOL" ++ JsMore.newline
  ++ "Transaction: " ++ signature ++ JsMore.newline
  ++ "View: https://explorer.solana.com/tx/" ++ signature ++ "?cluster=devnet".

(** Request Solana airdrop; [requested] is [params.amount]. *)
Definition requestSolanaAirdrop (fmt : Format) (sdk : Sdk)
    (rpcRequestAirdrop : Address -> Z -> Js.Exc string) (self : Address)
    (requested : Js.Value) : M string :=
  let amount := JsMore.or requested (Js.Number defaultAirdrop) in
  tryCatch
    (lamports <- lift (JsMore.toBigInt amount) ;;
     signature <- Airdrop.requestAirdrop sdk rpcRequestAirdrop self lamports ;;
     let amountSOL := solDisplay fmt 2 amount in
     ret (airdropRequested amountSOL signature))
    (fun error => ret ("❌ Airdrop failed: " ++ Js.message error)).

Close Scope wallet_scope.

End Client.

(** ** Vocabulary for runs that end without a confirmation *)

Module Poll.

Import Wallet.

(** How a run of [n] polls ends when none of them saw success: with the
    error the last poll raised, if it raised one, and with the timeout
    otherwise. *)
Definition gaveUp (sdk : Sdk) (signature : string) (st : State) (n : nat)
    : Outcome unit * State :=
  match n with
  | O => (Throws confirmationTimeout, st)
  | S n' =>
      match thrownBy (getSignatureStatuses sdk (polls st + n') signature) with
      | Some e =>
          (Throws e,
           mkState (polls st + n)
                   (trace st ++ rounds signature n' ++ [EvGetSignatureStatuses signature]))
      | None =>
          (Throws confirmationTimeout,
           mkState (polls st + n) (trace st ++ rounds signature n))
      end
  end.

(** An event of the polling loop for [signature]. *)
Definition isPolling (signature : string) (e : Event) : Prop :=
  e = EvGetSignatureStatuses signature \/ e = EvSleep 1000.

(** The message the wallet signs for a transfer. *)
Definition transferMessage (self destination : Address) (blockhash : Blockhash)
    (amount : Z) : TransactionMessage :=
  mkMessage 0 (Some self) (Some blockhash) [mkInstruction self destination amount].

(** The answer of a transfer that failed with error [e]. *)
Definition failure (e : Js.Error) : TransferResult :=
  mkTransfer false None (Some (Js.message e)).

(** The wallet's state once the blockhash has been asked for, and once
    the transaction [tx] has been handed to the node. *)
Definition requested (st : State) : State :=
  mkState (polls st) (trace st ++ [EvGetLatestBlockhash]).

Definition submitted (tx : SignedTransaction) (st : State) : State :=
  mkState (polls st) (trace st ++ [EvGetLatestBlockhash; EvSendTransaction tx]).

(** A node on which the transaction has failed: every status query shows
    it finalized with the execution error [e]. *)
Definition failedOnChain (e : string) : Sdk :=
  Sample.sdk (fun _ => StatusValue (Some [Some (mkStatus (Some finalized) (Some e))])).

End Poll.

(** * Properties *)

(** ** The verifier *)

Section Verifier.

Variables (payload : Payload.t) (requirements : Requirements.t).

Lemma verify_wrong_recipient :
  Payload.to payload <> Requirements.payTo requirements ->
  Executor.verifyPayment payload requirements =
    Result.invalid
      (Executor.wrongAddress (Requirements.payTo requirements) (Payload.to payload)).
Proof.
  intros Hne. apply String.eqb_neq in Hne.
  unfold Executor.verifyPayment, Executor.verifyPayment_try.
  now rewrite Hne.
Qed.

(** Once the recipient matches and both amounts are integer literals,
    the verdict is decided by the three remaining tests. *)
Lemma verify_parsed (paid required : Z) :
  Payload.to payload = Requirements.payTo requirements ->
  Js.StringToBigInt (Payload.amount payload) = Some paid ->
  Js.StringToBigInt (Requirements.maxAmountRequired requirements) = Some required ->
  Executor.verifyPayment payload requirements =
    if Scheme_eqb (Requirements.scheme requirements) exact
       && negb (paid =? required)
    then Result.invalid (Executor.incorrectAmount required paid)
    else if Scheme_eqb (Requirements.scheme requirements) up_to
            && (paid >? required)
    then Result.invalid (Executor.amountExceedsMax required paid)
    else if negb (String.eqb (Payload.network payload)
                             (Requirements.network requirements))
    then Result.invalid
           (Executor.wrongNetwork (Requirements.network requirements)
                                  (Payload.network payload))
    else if String.eqb (Payload.signature payload) ""
            || (Z.of_nat (String.length (Payload.signature payload)) <? 64)
    then Result.invalid Executor.invalidSignatureFormat
    else Spec.accepted payload paid.
Proof.
  intros Hto Hp Hr. apply String.eqb_eq in Hto.
  unfold Executor.verifyPayment, Executor.verifyPayment_try, Js.BigInt.
  rewrite Hto, Hp, Hr. cbn [negb Js.bind Js.ret].
  repeat match goal with |- context [if ?b then _ else _] => destruct b end;
    reflexivity.
Qed.

Lemma verify_unparsed_payment :
  Payload.to payload = Requirements.payTo requirements ->
  Js.StringToBigInt (Payload.amount payload) = None ->
  Executor.verifyPayment payload requirements =
    Result.invalid ("Cannot convert " ++ Payload.amount payload ++ " to a BigInt").
Proof.
  intros Hto Hp. apply String.eqb_eq in Hto.
  unfold Executor.verifyPayment, Executor.verifyPayment_try, Js.BigInt.
  now rewrite Hto, Hp.
Qed.

Lemma verify_unparsed_required (paid : Z) :
  Payload.to payload = Requirements.payTo requirements ->
  Js.StringToBigInt (Payload.amount payload) = Some paid ->
  Js.StringToBigInt (Requirements.maxAmountRequired requirements) = None ->
  Executor.verifyPayment payload requirements =
    Result.invalid
      ("Cannot convert " ++ Requirements.maxAmountRequired requirements
         ++ " to a BigInt").
Proof.
  intros Hto Hp Hr. apply String.eqb_eq in Hto.
  unfold Executor.verifyPayment, Executor.verifyPayment_try, Js.BigInt.
  now rewrite Hto, Hp, Hr.
Qed.

(** The format test on the proof, in the terms of the specification. *)
Lemma signature_test :
  String.eqb (Payload.signature payload) ""
    || (Z.of_nat (String.length (Payload.signature payload)) <? 64)
  = negb (64 <=? String.length (Payload.signature payload))%nat.
Proof.
  destruct (Payload.signature payload) as [|c s] eqn:E.
  - reflexivity.
  - cbn [String.eqb orb].
    destruct (Nat.leb_spec 64 (String.length (String c s)));
      destruct (Z.ltb_spec (Z.of_nat (String.length (String c s))) 64);
      cbn [negb]; try reflexivity; lia.
Qed.

End Verifier.

(** C1. The verifier tests recipient, amount, network and proof format in
    this order and reports the first test that fails.  In particular a
    payload sent to another recipient is rejected for the wrong address,
    whatever its amount, network and proof are. *)
Theorem verifyPayment_check_order (payload : Payload.t) (requirements : Requirements.t) :
  (Payload.to payload <> Requirements.payTo requirements ->
   Executor.verifyPayment payload requirements =
     Result.invalid
       (Executor.wrongAddress (Requirements.payTo requirements) (Payload.to payload)))
  /\
  (forall paid required,
     Js.StringToBigInt (Payload.amount payload) = Some paid ->
     Js.StringToBigInt (Requirements.maxAmountRequired requirements) = Some required ->
     Result.error (Executor.verifyPayment payload requirements) =
       Spec.firstFailure (Spec.checks payload requirements paid required)
     /\
     Result.isValid (Executor.verifyPayment payload requirements) =
       match Spec.firstFailure (Spec.checks payload requirements paid required) with
       | None => true
       | Some _ => false
       end).
Proof.
  split; [apply verify_wrong_recipient|].
  intros paid required Hp Hr.
  unfold Spec.checks; cbn [Spec.firstFailure].
  destruct (String.eqb_spec (Payload.to payload) (Requirements.payTo requirements))
    as [Hto|Hto].
  - rewrite (verify_parsed payload requirements paid required Hto Hp Hr).
    rewrite signature_test, Z.gtb_ltb, Z.ltb_antisym.
    destruct (Requirements.scheme requirements); cbn [Scheme_eqb andb];
      repeat match goal with
             | |- context [if negb ?b then _ else _] => destruct b; cbn [negb]
             | |- context [if ?b then _ else _] => destruct b
             end; split; reflexivity.
  - rewrite (verify_wrong_recipient payload requirements Hto). split; reflexivity.
Qed.

Lemma verifyPayment_check_order_witness :
  Executor.verifyPayment
    (Sample.payload "X9" "7" "net-B" 0) (Sample.requirement exact "100000000")
  = Result.invalid (Executor.wrongAddress "M1" "X9").
Proof.
  apply (proj1 (verifyPayment_check_order
                  (Sample.payload "X9" "7" "net-B" 0)
                  (Sample.requirement exact "100000000"))).
  cbn. discriminate.
Defined.

(** C2, as stated, fails: with scheme EXACT and a wrong amount, a payload
    sent to the wrong recipient is rejected for the address, not for the
    amount. *)
Lemma exact_mismatch_behind_recipient :
  Requirements.scheme (Sample.requirement exact "100000000") = exact
  /\ Js.StringToBigInt (Payload.amount (Sample.payload "X9" "7" "net-A" 0)) = Some 7
  /\ Js.StringToBigInt
       (Requirements.maxAmountRequired (Sample.requirement exact "100000000"))
     = Some 100000000
  /\ 7 <> 100000000
  /\ Executor.verifyPayment
       (Sample.payload "X9" "7" "net-A" 0) (Sample.requirement exact "100000000")
     = Result.invalid (Executor.wrongAddress "M1" "X9")
  /\ Executor.verifyPayment
       (Sample.payload "X9" "7" "net-A" 0) (Sample.requirement exact "100000000")
     <> Result.invalid (Executor.incorrectAmount 100000000 7).
Proof.
  repeat split; try reflexivity; try lia.
  vm_compute. discriminate.
Qed.

(** C2, amended.  With scheme EXACT, a payload sent to the required
    recipient whose amount differs from the required amount is rejected
    for the incorrect amount, whatever its network and proof are. *)
Theorem exact_amount_mismatch
    (payload : Payload.t) (requirements : Requirements.t) (paid required : Z) :
  Requirements.scheme requirements = exact ->
  Payload.to payload = Requirements.payTo requirements ->
  Js.StringToBigInt (Payload.amount payload) = Some paid ->
  Js.StringToBigInt (Requirements.maxAmountRequired requirements) = Some required ->
  paid <> required ->
  Executor.verifyPayment payload requirements =
    Result.invalid (Executor.incorrectAmount required paid).
Proof.
  intros Hs Hto Hp Hr Hne.
  rewrite (verify_parsed payload requirements paid required Hto Hp Hr), Hs.
  apply Z.eqb_neq in Hne. now rewrite Hne.
Qed.

Lemma exact_amount_mismatch_witness :
  Executor.verifyPayment
    (Sample.payload "M1" "7" "net-B" 0) (Sample.requirement exact "100000000")
  = Result.invalid (Executor.incorrectAmount 100000000 7).
Proof.
  apply (exact_amount_mismatch
           (Sample.payload "M1" "7" "net-B" 0) (Sample.requirement exact "100000000"));
    try reflexivity.
  lia.
Defined.

(** C3, as stated, fails in its second half: with scheme UP_TO, a payload
    that exceeds the maximum but names the wrong recipient is rejected for
    the address. *)
Lemma upto_excess_behind_recipient :
  Requirements.scheme (Sample.requirement up_to "500000000") = up_to
  /\ Js.StringToBigInt (Payload.amount (Sample.payload "X9" "600000000" "net-A" 0))
     = Some 600000000
  /\ Js.StringToBigInt
       (Requirements.maxAmountRequired (Sample.requirement up_to "500000000"))
     = Some 500000000
  /\ 600000000 > 500000000
  /\ Executor.verifyPayment
       (Sample.payload "X9" "600000000" "net-A" 0) (Sample.requirement up_to "500000000")
     = Result.invalid (Executor.wrongAddress "M1" "X9")
  /\ Executor.verifyPayment
       (Sample.payload "X9" "600000000" "net-A" 0) (Sample.requirement up_to "500000000")
     <> Result.invalid (Executor.amountExceedsMax 500000000 600000000).
Proof.
  repeat split; try reflexivity; try lia.
  vm_compute. discriminate.
Qed.

(** C3, amended.  With scheme UP_TO and a payload sent to the required
    recipient: if the amount is at most the required amount and network
    and proof are correct, the payload is accepted; if the amount exceeds
    the required amount, it is rejected for exceeding the maximum. *)
Theorem upto_accept_and_exceed
    (payload : Payload.t) (requirements : Requirements.t) (paid required : Z) :
  Requirements.scheme requirements = up_to ->
  Payload.to payload = Requirements.payTo requirements ->
  Js.StringToBigInt (Payload.amount payload) = Some paid ->
  Js.StringToBigInt (Requirements.maxAmountRequired requirements) = Some required ->
  (paid <= required ->
   Payload.network payload = Requirements.network requirements ->
   (64 <= String.length (Payload.signature payload))%nat ->
   Executor.verifyPayment payload requirements = Spec.accepted payload paid)
  /\
  (paid > required ->
   Executor.verifyPayment payload requirements =
     Result.invalid (Executor.amountExceedsMax required paid)).
Proof.
  intros Hs Hto Hp Hr.
  rewrite (verify_parsed payload requirements paid required Hto Hp Hr), Hs.
  rewrite signature_test. cbn [Scheme_eqb andb].
  split.
  - intros Hle Hnet Hsig.
    apply String.eqb_eq in Hnet. apply Nat.leb_le in Hsig.
    rewrite Hnet, Hsig.
    destruct (Z.gtb_spec paid required); [lia | reflexivity].
  - intros Hgt. destruct (Z.gtb_spec paid required); [reflexivity | lia].
Qed.

Lemma upto_accept_and_exceed_witness :
  Executor.verifyPayment
    (Sample.payload "M1" "300000000" "net-A" 0) (Sample.requirement up_to "500000000")
  = Spec.accepted (Sample.payload "M1" "300000000" "net-A" 0) 300000000.
Proof.
  apply (proj1 (upto_accept_and_exceed
                  (Sample.payload "M1" "300000000" "net-A" 0)
                  (Sample.requirement up_to "500000000")
                  300000000 500000000
                  eq_refl eq_refl eq_refl eq_refl)).
  - lia.
  - reflexivity.
  - apply Nat.leb_le. reflexivity.
Defined.

(** ** The requirement builders *)

Lemma evm_issued (cfg : Merchant.Config) (params : Js.Value) (requirements : Requirements.t) :
  Merchant.issued (Merchant.getProductDetailsAndRequestPayment cfg params)
    = Some requirements ->
  Merchant.namesProduct params = true
  /\ Requirements.scheme requirements = exact
  /\ Requirements.network requirements = Merchant.NETWORK cfg
  /\ Requirements.payTo requirements = Merchant.WALLET_ADDRESS cfg
  /\ Requirements.maxAmountRequired requirements = "1000000".
Proof.
  unfold Merchant.getProductDetailsAndRequestPayment, Merchant.namesProduct.
  destruct (Merchant.productNameOf params) as [e|v]; [discriminate|].
  destruct (Merchant.validProductName v) as [productName|]; [|discriminate].
  cbn [Merchant.issued]. intros [= <-]. repeat split.
Qed.

Lemma solana_issued (cfg : Merchant.Config) (params : Js.Value) (requirements : Requirements.t) :
  Merchant.issued (Merchant.getProductDetailsAndRequestSolanaPayment cfg params)
    = Some requirements ->
  Merchant.namesProduct params = true
  /\ Requirements.scheme requirements = exact
  /\ Requirements.network requirements = "solana-devnet"
  /\ Merchant.solanaMerchantAddress cfg = Some (Requirements.payTo requirements)
  /\ Requirements.payTo requirements <> ""
  /\ Requirements.maxAmountRequired requirements = "100000000".
Proof.
  unfold Merchant.getProductDetailsAndRequestSolanaPayment, Merchant.namesProduct.
  destruct (Merchant.productNameOf params) as [e|v]; [discriminate|].
  destruct (Merchant.validProductName v) as [productName|]; [|discriminate].
  destruct (Merchant.solanaMerchantAddress cfg) as [merchant|]; [|discriminate].
  destruct (String.eqb_spec merchant ""); [discriminate|].
  cbn [Merchant.issued]. intros [= <-]. repeat split. assumption.
Qed.

(** C4. The requirement the Solana builder issues for "banana" has scheme
    EXACT and asks for 100000000 lamports, and a payload that claims
    100000000 to the same recipient on the same network with a well-formed
    proof is accepted. *)
Theorem banana_round_trip
    (cfg : Merchant.Config) (params : Js.Value)
    (requirements : Requirements.t) (payload : Payload.t) :
  Merchant.productNameOf params = inr (Js.Str "banana") ->
  Merchant.issued (Merchant.getProductDetailsAndRequestSolanaPayment cfg params)
    = Some requirements ->
  Payload.to payload = Requirements.payTo requirements ->
  Payload.network payload = Requirements.network requirements ->
  Js.StringToBigInt (Payload.amount payload) = Some 100000000 ->
  (64 <= String.length (Payload.signature payload))%nat ->
  Requirements.scheme requirements = exact
  /\ Requirements.maxAmountRequired requirements = "100000000"
  /\ Executor.verifyPayment payload requirements = Spec.accepted payload 100000000
  /\ Result.isValid (Executor.verifyPayment payload requirements) = true.
Proof.
  intros _ Hissued Hto Hnet Hamount Hsig.
  destruct (solana_issued cfg params requirements Hissued)
    as (_ & Hscheme & _ & _ & _ & Hmax).
  assert (Hrequired :
            Js.StringToBigInt (Requirements.maxAmountRequired requirements)
            = Some 100000000) by now rewrite Hmax.
  assert (Hv : Executor.verifyPayment payload requirements
               = Spec.accepted payload 100000000).
  { rewrite (verify_parsed _ _ 100000000 100000000 Hto Hamount Hrequired).
    rewrite signature_test, Hscheme.
    apply String.eqb_eq in Hnet. apply Nat.leb_le in Hsig.
    rewrite Hnet, Hsig. reflexivity. }
  repeat split; try assumption. now rewrite Hv.
Qed.

Lemma banana_round_trip_witness :
  Result.isValid
    (Executor.verifyPayment
       (Sample.payload "M1" "100000000" "solana-devnet" 0)
       {| Requirements.scheme := exact;
          Requirements.network := "solana-devnet";
          Requirements.asset := "SOL";
          Requirements.payTo := "M1";
          Requirements.maxAmountRequired := "100000000";
          Requirements.description := "Payment for: banana";
          Requirements.resource := Some "https://example.com/product/banana";
          Requirements.mimeType := Some "application/json";
          Requirements.maxTimeoutSeconds := Some 1200;
          Requirements.tokenMint := None;
          Requirements.extra :=
            Merchant.productExtra "SOL" "2" [("blockchain", Js.Str "solana")] "banana"
       |}) = true.
Proof.
  apply (banana_round_trip Sample.config Sample.banana _
           (Sample.payload "M1" "100000000" "solana-devnet" 0));
    try reflexivity.
  apply Nat.leb_le. reflexivity.
Defined.

(** C5, as stated, fails: a payload created long after the requirement's
    window of 1200 seconds has elapsed is accepted. *)
Lemma expired_payload_accepted :
  Spec.expired 0 (Sample.requirement exact "100000000")
    (Sample.payload "M1" "100000000" "net-A" 86400000) = true
  /\ Result.isValid
       (Executor.verifyPayment
          (Sample.payload "M1" "100000000" "net-A" 86400000)
          (Sample.requirement exact "100000000")) = true.
Proof. split; reflexivity. Qed.

(** C5, amended.  The verdict depends neither on the payload's creation
    time nor on the requirement's timeout: verification gives the same
    result however late the payload was created. *)
Theorem verifyPayment_ignores_time
    (payload : Payload.t) (requirements : Requirements.t)
    (time : Z) (seconds : option Z) :
  Executor.verifyPayment (Spec.atTime time payload)
                         (Spec.withTimeout seconds requirements)
  = Executor.verifyPayment payload requirements.
Proof.
  unfold Executor.verifyPayment, Executor.verifyPayment_try.
  cbn [Spec.atTime Spec.withTimeout Payload.to Payload.amount Payload.network
       Payload.signature Payload.from Requirements.payTo Requirements.scheme
       Requirements.maxAmountRequired Requirements.network].
  destruct (String.eqb (Payload.to payload) (Requirements.payTo requirements));
    [|reflexivity].
  cbn [negb].
  destruct (Js.BigInt (Payload.amount payload)) as [e|paid]; [reflexivity|].
  destruct (Js.BigInt (Requirements.maxAmountRequired requirements)) as [e|required];
    [reflexivity|].
  cbn [Js.bind].
  repeat match goal with |- context [if ?b then _ else _] => destruct b end;
    reflexivity.
Qed.

Ltac rejected :=
  split; [intros _; eexists; reflexivity | intros _; reflexivity].

(** C10. verifyPayment always answers with a result: an error thrown
    inside it (such as an amount that is no integer literal) becomes a
    rejection carrying the error's message.  The result has an error
    message exactly when it is invalid, and a valid result repeats the
    payload's signature, amount, sender and recipient. *)
Theorem verifyPayment_total_well_formed
    (payload : Payload.t) (requirements : Requirements.t) :
  (Result.isValid (Executor.verifyPayment payload requirements) = false
   <-> exists msg, Result.error (Executor.verifyPayment payload requirements) = Some msg)
  /\
  (Result.isValid (Executor.verifyPayment payload requirements) = true ->
   exists paid,
     Js.StringToBigInt (Payload.amount payload) = Some paid
     /\ Executor.verifyPayment payload requirements = Spec.accepted payload paid)
  /\
  (forall e,
     Executor.verifyPayment_try payload requirements = inl e ->
     Executor.verifyPayment payload requirements = Result.invalid (Js.message e))
  /\
  (Payload.to payload = Requirements.payTo requirements ->
   Js.StringToBigInt (Payload.amount payload) = None ->
   Executor.verifyPayment payload requirements =
     Result.invalid ("Cannot convert " ++ Payload.amount payload ++ " to a BigInt")).
Proof.
  split; [|split; [|split]].
  - unfold Executor.verifyPayment, Executor.verifyPayment_try, Js.BigInt.
    destruct (String.eqb (Payload.to payload) (Requirements.payTo requirements));
      cbn [negb]; [|rejected].
    destruct (Js.StringToBigInt (Payload.amount payload)) as [paid|]; [|rejected].
    destruct (Js.StringToBigInt (Requirements.maxAmountRequired requirements))
      as [required|]; [|rejected].
    cbn [Js.bind Js.ret].
    repeat match goal with |- context [if ?b then _ else _] => destruct b end;
      try rejected.
    cbn. split; [discriminate | intros [msg H]; discriminate].
  - unfold Executor.verifyPayment, Executor.verifyPayment_try, Js.BigInt.
    destruct (String.eqb (Payload.to payload) (Requirements.payTo requirements));
      cbn [negb]; [|discriminate].
    destruct (Js.StringToBigInt (Payload.amount payload)) as [paid|];
      [|discriminate].
    destruct (Js.StringToBigInt (Requirements.maxAmountRequired requirements))
      as [required|]; [|discriminate].
    cbn [Js.bind Js.ret].
    repeat match goal with |- context [if ?b then _ else _] => destruct b end;
      cbn; intros H; try discriminate.
    exists paid. split; reflexivity.
  - intros e He. unfold Executor.verifyPayment. now rewrite He.
  - apply verify_unparsed_payment.
Qed.

Lemma verifyPayment_total_well_formed_witness :
  Executor.verifyPayment
    (Sample.payload "M1" "1.5" "net-A" 0) (Sample.requirement exact "100000000")
  = Result.invalid "Cannot convert 1.5 to a BigInt".
Proof.
  apply (proj2 (proj2 (proj2 (verifyPayment_total_well_formed
                                (Sample.payload "M1" "1.5" "net-A" 0)
                                (Sample.requirement exact "100000000")))));
    reflexivity.
Defined.

(** ** The confirmation poller *)

Section Poller.

Import Wallet.

Variables (sdk : Sdk) (signature : string) (maxRetries : Z).

Abbreviation reply n := (getSignatureStatuses sdk n signature).

(** One turn of the loop, by what the status query answers. *)
Lemma confirmLoop_turn (fuel : nat) (retries : Z) (st : State) :
  confirmLoop (S fuel) sdk signature maxRetries retries st =
    if retries <? maxRetries then
      if observesSuccess (reply (polls st)) then
        (Returns tt, afterQuery signature st)
      else
        match thrownBy (reply (polls st)) with
        | Some e =>
            if retries =? maxRetries - 1 then (Throws e, afterQuery signature st)
            else confirmLoop fuel sdk signature maxRetries (retries + 1)
                   (afterSleep (afterQuery signature st))
        | None =>
            confirmLoop fuel sdk signature maxRetries (retries + 1)
              (afterSleep (afterQuery signature st))
        end
    else (Throws confirmationTimeout, st).
Proof.
  cbn [confirmLoop].
  destruct (retries <? maxRetries); [|reflexivity].
  unfold bind, tryCatch, pollOnce, bind, rpcGetSignatureStatuses,
    observesSuccess, thrownBy.
  destruct (reply (polls st)) as [e | [[|[[c e]|] rest]|]]; cbn.
  - destruct (retries =? maxRetries - 1); reflexivity.
  - reflexivity.
  - destruct (isTerminal c); cbn; [|reflexivity].
    destruct e as [e|]; cbn; [|reflexivity].
    destruct (retries =? maxRetries - 1); reflexivity.
  - reflexivity.
  - reflexivity.
Qed.

Lemma confirmLoop_done (fuel : nat) (retries : Z) (st : State) :
  maxRetries <= retries ->
  confirmLoop fuel sdk signature maxRetries retries st
  = (Throws confirmationTimeout, st).
Proof.
  intros H. destruct fuel; cbn [confirmLoop];
    destruct (Z.ltb_spec retries maxRetries); try lia; reflexivity.
Qed.

Lemma success_is_terminal (r : StatusReply) :
  observesSuccess r = true -> observesTerminal r = true.
Proof.
  destruct r as [e | [[|[[c e]|] rest]|]]; cbn; try discriminate.
  now intros [H _]%andb_prop.
Qed.

Lemma thrownBy_non_terminal (r : StatusReply) :
  observesTerminal r = false ->
  thrownBy r = match r with StatusThrows e => Some e | StatusValue _ => None end.
Proof.
  destruct r as [e | [[|[[c e]|] rest]|]]; cbn; try reflexivity.
  now intros ->.
Qed.

(** The poller returns at the first poll that sees success, having slept
    after each earlier poll and not after this one. *)
Lemma confirmLoop_first_success (k : nat) :
  forall (fuel : nat) (retries : Z) (st : State),
    (k < fuel)%nat ->
    retries + Z.of_nat k < maxRetries ->
    (forall j, (j < k)%nat -> observesSuccess (reply (polls st + j)) = false) ->
    observesSuccess (reply (polls st + k)) = true ->
    confirmLoop fuel sdk signature maxRetries retries st
    = (Returns tt,
       mkState (polls st + k + 1)
               (trace st ++ rounds signature k ++ [EvGetSignatureStatuses signature])).
Proof.
  induction k as [|k IH]; intros fuel retries st Hfuel Hlt Hbefore Hat;
    (destruct fuel as [|fuel]; [lia|]);
    rewrite confirmLoop_turn;
    (destruct (Z.ltb_spec retries maxRetries); [|lia]).
  - rewrite Nat.add_0_r in Hat. rewrite Hat.
    unfold afterQuery. cbn [rounds app]. f_equal; f_equal; lia.
  - pose proof (Hbefore 0%nat ltac:(lia)) as H0.
    rewrite Nat.add_0_r in H0. rewrite H0.
    assert (Hnext :
              confirmLoop fuel sdk signature maxRetries (retries + 1)
                (afterSleep (afterQuery signature st))
              = (Returns tt,
                 mkState (polls st + S k + 1)
                   (trace st ++ rounds signature (S k)
                      ++ [EvGetSignatureStatuses signature]))).
    { rewrite (IH fuel (retries + 1) (afterSleep (afterQuery signature st)));
        cbn [afterSleep afterQuery polls trace].
      - cbn [rounds]. rewrite <- !app_assoc. cbn [app].
        f_equal; f_equal; lia.
      - lia.
      - lia.
      - intros j Hj. replace (S (polls st) + j)%nat with (polls st + S j)%nat by lia.
        apply Hbefore. lia.
      - replace (S (polls st) + k)%nat with (polls st + S k)%nat by lia.
        exact Hat. }
    destruct (thrownBy (reply (polls st))); [|exact Hnext].
    destruct (Z.eqb_spec retries (maxRetries - 1)); [lia | exact Hnext].
Qed.

(** With no terminal status in sight the poller uses up its budget. *)
Lemma confirmLoop_no_terminal (n : nat) :
  forall (fuel : nat) (retries : Z) (st : State),
    (n <= fuel)%nat ->
    retries + Z.of_nat n = maxRetries ->
    (forall j, (j < n)%nat -> observesTerminal (reply (polls st + j)) = false) ->
    confirmLoop fuel sdk signature maxRetries retries st
    = exhausted sdk signature st n.
Proof.
  induction n as [|n IH]; intros fuel retries st Hfuel Hsum Hnone.
  - rewrite confirmLoop_done by lia. reflexivity.
  - destruct fuel as [|fuel]; [lia|].
    rewrite confirmLoop_turn.
    destruct (Z.ltb_spec retries maxRetries); [|lia].
    pose proof (Hnone 0%nat ltac:(lia)) as H0. rewrite Nat.add_0_r in H0.
    destruct (observesSuccess (reply (polls st))) eqn:Hs.
    { apply success_is_terminal in Hs. congruence. }
    rewrite (thrownBy_non_terminal _ H0).
    assert (Hnext :
              (0 < n)%nat ->
              confirmLoop fuel sdk signature maxRetries (retries + 1)
                (afterSleep (afterQuery signature st))
              = exhausted sdk signature st (S n)).
    { intros Hpos.
      rewrite (IH fuel (retries + 1) (afterSleep (afterQuery signature st)));
        [|lia|lia|].
      - destruct n as [|n]; [lia|].
        unfold exhausted. cbn [afterSleep afterQuery polls trace].
        replace (S (polls st) + n)%nat with (polls st + S n)%nat by lia.
        destruct (reply (polls st + S n)).
        + cbn [rounds]. rewrite <- !app_assoc. cbn [app].
          f_equal; f_equal; lia.
        + cbn [rounds]. rewrite <- !app_assoc. cbn [app].
          f_equal; f_equal; lia.
      - intros j Hj. cbn [afterSleep afterQuery polls].
        replace (S (polls st) + j)%nat with (polls st + S j)%nat by lia.
        apply Hnone. lia. }
    destruct n as [|n].
    + (* the last poll of the budget *)
      unfold exhausted. rewrite Nat.add_0_r.
      destruct (reply (polls st)) as [e|value].
      * destruct (Z.eqb_spec retries (maxRetries - 1)); [|lia].
        unfold afterQuery. cbn [rounds app]. f_equal; f_equal; lia.
      * rewrite confirmLoop_done by lia.
        unfold afterSleep, afterQuery. cbn [polls trace rounds].
        rewrite <- app_assoc. cbn [app]. f_equal; f_equal; lia.
    + destruct (reply (polls st)) as [e|value].
      * destruct (Z.eqb_spec retries (maxRetries - 1)); [lia|].
        apply Hnext. lia.
      * apply Hnext. lia.
Qed.

Lemma count_app (p : Event -> bool) (a b : list Event) :
  count p (a ++ b) = (count p a + count p b)%nat.
Proof. unfold count. now rewrite filter_app, length_app. Qed.

Lemma count_rounds_query (n : nat) : count isQuery (rounds signature n) = n.
Proof.
  induction n as [|n IH]; [reflexivity|].
  cbn [rounds]. unfold count in *. cbn. now rewrite IH.
Qed.

Lemma count_rounds_sleep (n : nat) : count isSleep (rounds signature n) = n.
Proof.
  induction n as [|n IH]; [reflexivity|].
  cbn [rounds]. unfold count in *. cbn. now rewrite IH.
Qed.

(** The loop never submits anything, and with fuel for its whole budget
    it comes to an end. *)
Lemma confirmLoop_sends (fuel : nat) :
  forall (retries : Z) (st : State),
    exists out st',
      confirmLoop fuel sdk signature maxRetries retries st = (out, st')
      /\ count isSend (trace st') = count isSend (trace st)
      /\ ((Z.to_nat (maxRetries - retries) <= fuel)%nat -> out <> OutOfFuel).
Proof.
  induction fuel as [|fuel IH]; intros retries st.
  - cbn [confirmLoop]. destruct (Z.ltb_spec retries maxRetries).
    + exists OutOfFuel, st. repeat split. lia.
    + exists (Throws confirmationTimeout), st. repeat split. discriminate.
  - rewrite confirmLoop_turn.
    assert (Hq : count isSend (trace (afterQuery signature st))
                 = count isSend (trace st)).
    { unfold afterQuery. cbn [trace]. rewrite count_app. cbn. lia. }
    assert (Hnext :
              exists out st',
                confirmLoop fuel sdk signature maxRetries (retries + 1)
                  (afterSleep (afterQuery signature st)) = (out, st')
                /\ count isSend (trace st') = count isSend (trace st)
                /\ ((Z.to_nat (maxRetries - retries) <= S fuel)%nat ->
                    out <> OutOfFuel)).
    { destruct (IH (retries + 1) (afterSleep (afterQuery signature st)))
        as (out & st' & Hrun & Hcount & Hfuel).
      exists out, st'. split; [exact Hrun|]. split.
      - rewrite Hcount. unfold afterSleep, afterQuery. cbn [trace].
        rewrite !count_app. cbn. lia.
      - intros H. apply Hfuel. lia. }
    destruct (Z.ltb_spec retries maxRetries).
    + destruct (observesSuccess (reply (polls st))).
      * exists (Returns tt), (afterQuery signature st). repeat split; [exact Hq|discriminate].
      * destruct (thrownBy (reply (polls st))) as [e|]; [|exact Hnext].
        destruct (retries =? maxRetries - 1); [|exact Hnext].
        exists (Throws e), (afterQuery signature st).
        repeat split; [exact Hq|discriminate].
    + exists (Throws confirmationTimeout), st. repeat split. discriminate.
Qed.

(** Without a poll that sees success the loop ends by throwing. *)
Lemma confirmLoop_no_success (n : nat) :
  forall (fuel : nat) (retries : Z) (st : State),
    (n <= fuel)%nat ->
    retries + Z.of_nat n = maxRetries ->
    (forall j, (j < n)%nat -> observesSuccess (reply (polls st + j)) = false) ->
    exists e st',
      confirmLoop fuel sdk signature maxRetries retries st = (Throws e, st').
Proof.
  induction n as [|n IH]; intros fuel retries st Hfuel Hsum Hnone.
  - rewrite confirmLoop_done by lia. eauto.
  - destruct fuel as [|fuel]; [lia|].
    rewrite confirmLoop_turn.
    destruct (Z.ltb_spec retries maxRetries); [|lia].
    pose proof (Hnone 0%nat ltac:(lia)) as H0. rewrite Nat.add_0_r in H0.
    rewrite H0.
    assert (Hnext :
              exists e st',
                confirmLoop fuel sdk signature maxRetries (retries + 1)
                  (afterSleep (afterQuery signature st)) = (Throws e, st')).
    { apply IH; [lia|lia|].
      intros j Hj. cbn [afterSleep afterQuery polls].
      replace (S (polls st) + j)%nat with (polls st + S j)%nat by lia.
      apply Hnone. lia. }
    destruct (thrownBy (reply (polls st))) as [e|]; [|exact Hnext].
    destruct (retries =? maxRetries - 1); [eauto | exact Hnext].
Qed.

End Poller.

(** C6. At the first poll whose status query sees the transaction
    confirmed or finalized without error, the poller returns: it has
    slept one second after each earlier poll, and the query that saw the
    success is the last thing it did. *)
Theorem confirmTransaction_returns_at_first_success
    (sdk : Wallet.Sdk) (signature : string) (maxRetries : option Z)
    (st : Wallet.State) (k : nat) :
  Z.of_nat k < Wallet.attempts maxRetries ->
  (forall j, (j < k)%nat ->
     Wallet.observesSuccess
       (Wallet.getSignatureStatuses sdk (Wallet.polls st + j) signature) = false) ->
  Wallet.observesSuccess
    (Wallet.getSignatureStatuses sdk (Wallet.polls st + k) signature) = true ->
  Wallet.confirmTransaction sdk signature maxRetries st
  = (Wallet.Returns tt,
     Wallet.mkState
       (Wallet.polls st + k + 1)
       (Wallet.trace st ++ Wallet.rounds signature k
          ++ [Wallet.EvGetSignatureStatuses signature])).
Proof.
  intros Hk Hbefore Hat.
  unfold Wallet.confirmTransaction. fold (Wallet.attempts maxRetries).
  apply confirmLoop_first_success; try assumption; lia.
Qed.

Lemma confirmTransaction_returns_at_first_success_witness :
  Wallet.confirmTransaction Sample.confirmsThird "sig" None Wallet.init
  = (Wallet.Returns tt,
     Wallet.mkState 3
       [Wallet.EvGetSignatureStatuses "sig"; Wallet.EvSleep 1000;
        Wallet.EvGetSignatureStatuses "sig"; Wallet.EvSleep 1000;
        Wallet.EvGetSignatureStatuses "sig"]).
Proof.
  apply (confirmTransaction_returns_at_first_success
           Sample.confirmsThird "sig" None Wallet.init 2).
  - reflexivity.
  - intros j Hj. destruct j as [|[|j]]; [reflexivity | reflexivity | lia].
  - reflexivity.
Defined.

(** C7, as stated, fails: when the node cannot be reached no poll sees a
    terminal status, yet the run ends with the error of the thirtieth
    query and not with the timeout. *)
Lemma poller_ends_with_query_error :
  (forall j,
     Wallet.observesTerminal
       (Wallet.getSignatureStatuses Sample.unreachable j "sig") = false)
  /\ fst (Wallet.confirmTransaction Sample.unreachable "sig" None Wallet.init)
     = Wallet.Throws (Js.mkError "fetch failed")
  /\ Wallet.count Wallet.isQuery
       (Wallet.trace
          (snd (Wallet.confirmTransaction Sample.unreachable "sig" None Wallet.init)))
     = 30%nat
  /\ fst (Wallet.confirmTransaction Sample.unreachable "sig" None Wallet.init)
     <> Wallet.Throws Wallet.confirmationTimeout.
Proof.
  split; [reflexivity|].
  split; [vm_compute; reflexivity|].
  split; [vm_compute; reflexivity|].
  vm_compute. discriminate.
Qed.

(** C7, amended.  When no poll sees a terminal status, the poller makes
    exactly as many status queries as it has attempts (30 by default,
    sleeping 1000 ms after a poll before the next) and then fails: with
    the confirmation timeout when the last query was answered, and with
    the last query's own error when that query failed. *)
Theorem confirmTransaction_exhausts_budget
    (sdk : Wallet.Sdk) (signature : string) (maxRetries : option Z)
    (st : Wallet.State) :
  (forall j, (j < Z.to_nat (Wallet.attempts maxRetries))%nat ->
     Wallet.observesTerminal
       (Wallet.getSignatureStatuses sdk (Wallet.polls st + j) signature) = false) ->
  Wallet.attempts None = 30
  /\
  (exists e events,
     Wallet.confirmTransaction sdk signature maxRetries st
     = (Wallet.Throws e,
        Wallet.mkState
          (Wallet.polls st + Z.to_nat (Wallet.attempts maxRetries))
          (Wallet.trace st ++ events))
     /\ Wallet.count Wallet.isQuery events = Z.to_nat (Wallet.attempts maxRetries))
  /\
  (Z.to_nat (Wallet.attempts maxRetries) = 0%nat
   \/ Wallet.replyThrows
        (Wallet.getSignatureStatuses sdk
           (Wallet.polls st + (Z.to_nat (Wallet.attempts maxRetries) - 1)) signature)
      = false ->
   Wallet.confirmTransaction sdk signature maxRetries st
   = (Wallet.Throws Wallet.confirmationTimeout,
      Wallet.mkState
        (Wallet.polls st + Z.to_nat (Wallet.attempts maxRetries))
        (Wallet.trace st
           ++ Wallet.rounds signature (Z.to_nat (Wallet.attempts maxRetries)))))
  /\
  (forall e,
     (0 < Z.to_nat (Wallet.attempts maxRetries))%nat ->
     Wallet.getSignatureStatuses sdk
       (Wallet.polls st + (Z.to_nat (Wallet.attempts maxRetries) - 1)) signature
     = Wallet.StatusThrows e ->
     Wallet.confirmTransaction sdk signature maxRetries st
     = (Wallet.Throws e,
        Wallet.mkState
          (Wallet.polls st + Z.to_nat (Wallet.attempts maxRetries))
          (Wallet.trace st
             ++ Wallet.rounds signature (Z.to_nat (Wallet.attempts maxRetries) - 1)
             ++ [Wallet.EvGetSignatureStatuses signature]))).
Proof.
  intros Hnone. split; [reflexivity|].
  assert (Hrun :
            Wallet.confirmTransaction sdk signature maxRetries st
            = Wallet.exhausted sdk signature st
                (Z.to_nat (Wallet.attempts maxRetries))).
  { unfold Wallet.confirmTransaction. fold (Wallet.attempts maxRetries).
    destruct (Z.le_gt_cases (Wallet.attempts maxRetries) 0) as [Hle|Hgt].
    - rewrite confirmLoop_done by lia.
      replace (Z.to_nat (Wallet.attempts maxRetries)) with 0%nat by lia.
      reflexivity.
    - apply confirmLoop_no_terminal; [lia | lia | exact Hnone]. }
  rewrite Hrun. clear Hrun.
  destruct (Z.to_nat (Wallet.attempts maxRetries)) as [|n]; cbn [Wallet.exhausted].
  - assert (Hst : st = Wallet.mkState (Wallet.polls st + 0) (Wallet.trace st ++ []))
      by (rewrite app_nil_r, Nat.add_0_r; now destruct st).
    split; [|split].
    + exists Wallet.confirmationTimeout, []. split; [now rewrite <- Hst | reflexivity].
    + intros _. cbn [Wallet.rounds]. now rewrite <- Hst.
    + intros e H. lia.
  - replace (S n - 1)%nat with n by lia.
    destruct (Wallet.getSignatureStatuses sdk (Wallet.polls st + n) signature)
      as [e|value] eqn:Hlast.
    + split; [|split].
      * exists e, (Wallet.rounds signature n
                   ++ [Wallet.EvGetSignatureStatuses signature])%list.
        split; [reflexivity|].
        rewrite count_app, count_rounds_query. cbn. lia.
      * intros [H|H]; [lia | discriminate].
      * intros e' _ [= <-]. reflexivity.
    + split; [|split].
      * exists Wallet.confirmationTimeout, (Wallet.rounds signature (S n)).
        split; [reflexivity | apply count_rounds_query].
      * intros _. reflexivity.
      * intros e _ H. discriminate.
Qed.

Lemma confirmTransaction_exhausts_budget_witness :
  Wallet.confirmTransaction Sample.neverSeen "sig" None Wallet.init
  = (Wallet.Throws Wallet.confirmationTimeout,
     Wallet.mkState 30 (Wallet.rounds "sig" 30)).
Proof.
  apply (proj1 (proj2 (proj2 (confirmTransaction_exhausts_budget
                                Sample.neverSeen "sig" None Wallet.init
                                (fun j _ => eq_refl))))).
  right. reflexivity.
Defined.

(** ** The transfer executor *)

(** A step before the confirmation failed: the answer is a failure. *)
Ltac failed_early :=
  eexists _, _; split; [reflexivity|];
  cbn [Wallet.trace Wallet.success Wallet.error Wallet.signature];
  rewrite ?count_app; cbn;
  split; [lia|]; split; [discriminate|]; split; [intros _; eauto|].

(** C8. One call of transferSol submits the transaction at most once.  It
    always answers with a result; a successful result follows exactly one
    submission, and when the submitted transaction is not seen confirmed
    within the polling budget (timeout, failed query or failed
    transaction) the answer is a failure, still after that one submission
    only. *)
Theorem transferSol_submits_at_most_once
    (sdk : Wallet.Sdk) (self destination : Address) (amount : Z)
    (st : Wallet.State) :
  exists result st',
    Wallet.transferSol sdk self destination amount st = (Wallet.Returns result, st')
    /\ (Wallet.count Wallet.isSend (Wallet.trace st')
        <= Wallet.count Wallet.isSend (Wallet.trace st) + 1)%nat
    /\ (Wallet.success result = true ->
        Wallet.count Wallet.isSend (Wallet.trace st')
        = (Wallet.count Wallet.isSend (Wallet.trace st) + 1)%nat
        /\ Wallet.error result = None)
    /\ (Wallet.success result = false ->
        exists msg, Wallet.error result = Some msg /\ Wallet.signature result = None)
    /\ (forall blockhash amount' tx,
          Wallet.getLatestBlockhash sdk = inr blockhash ->
          Wallet.lamports sdk amount = inr amount' ->
          Wallet.signTransactionMessageWithSigners sdk
            (Wallet.mkMessage 0 (Some self) (Some blockhash)
               [Wallet.mkInstruction self destination amount'])
          = inr tx ->
          Wallet.sendTransaction sdk tx = inr tt ->
          (forall j, (j < 30)%nat ->
             Wallet.observesSuccess
               (Wallet.getSignatureStatuses sdk (Wallet.polls st + j)
                  (Wallet.txSignature tx)) = false) ->
          Wallet.success result = false
          /\ Wallet.count Wallet.isSend (Wallet.trace st')
             = (Wallet.count Wallet.isSend (Wallet.trace st) + 1)%nat).
Proof.
  unfold Wallet.transferSol, Wallet.tryCatch, Wallet.bind, Wallet.emit, Wallet.lift,
    Wallet.ret, Wallet.throw.
  cbn [Wallet.polls Wallet.trace].
  destruct (Wallet.getLatestBlockhash sdk) as [e|blockhash].
  { failed_early. intros ? ? ? [=]. }
  destruct (Wallet.lamports sdk amount) as [e|amount'].
  { failed_early. intros ? ? ? _ [=]. }
  destruct (Wallet.signTransactionMessageWithSigners sdk _) as [e|tx] eqn:Hsign.
  { failed_early. intros ? ? ? [= <-] [= <-]. congruence. }
  destruct (Wallet.sendTransaction sdk tx) as [e|[]] eqn:Hsend.
  { failed_early. intros ? ? ? [= <-] [= <-]. rewrite Hsign. intros [= <-]. congruence. }
  unfold Wallet.confirmTransaction. cbn [Wallet.polls Wallet.trace].
  set (sent := Wallet.mkState (Wallet.polls st)
                 ((Wallet.trace st ++ [Wallet.EvGetLatestBlockhash])
                    ++ [Wallet.EvSendTransaction tx])).
  assert (Hsent : Wallet.count Wallet.isSend (Wallet.trace sent)
                  = (Wallet.count Wallet.isSend (Wallet.trace st) + 1)%nat).
  { unfold sent. cbn [Wallet.trace]. rewrite !count_app. cbn. lia. }
  destruct (confirmLoop_sends sdk (Wallet.txSignature tx) Wallet.defaultMaxRetries
              (Z.to_nat Wallet.defaultMaxRetries) 0 sent)
    as (out & st' & Hrun & Hcount & Hfuel).
  rewrite Hrun. rewrite Hsent in Hcount.
  destruct out as [[]|e|].
  - eexists _, _. split; [reflexivity|].
    cbn [Wallet.success Wallet.error Wallet.signature].
    split; [lia|]. split; [intros _; split; [exact Hcount | reflexivity]|].
    split; [discriminate|].
    intros ? ? ? [= <-] [= <-]. rewrite Hsign. intros [= <-] _ Hnone.
    destruct (confirmLoop_no_success sdk (Wallet.txSignature tx)
                Wallet.defaultMaxRetries 30 (Z.to_nat Wallet.defaultMaxRetries) 0 sent)
      as (e & st'' & Hthrows); [cbn; lia | reflexivity | exact Hnone |].
    congruence.
  - eexists _, _. split; [reflexivity|].
    cbn [Wallet.success Wallet.error Wallet.signature].
    split; [lia|]. split; [discriminate|]. split; [intros _; eauto|].
    intros. split; [reflexivity | exact Hcount].
  - exfalso. apply Hfuel; [cbn; lia | reflexivity].
Qed.

Lemma transferSol_submits_at_most_once_witness :
  exists result st',
    Wallet.transferSol Sample.neverSeen "C1" "M1" 100000000 Wallet.init
    = (Wallet.Returns result, st')
    /\ Wallet.success result = false
    /\ Wallet.count Wallet.isSend (Wallet.trace st') = 1%nat.
Proof.
  destruct (transferSol_submits_at_most_once
              Sample.neverSeen "C1" "M1" 100000000 Wallet.init)
    as (result & st' & Hrun & _ & _ & _ & Hlate).
  exists result, st'. split; [exact Hrun|].
  apply (Hlate "blockhash" 100000000
           (Wallet.mkSigned
              (Wallet.mkMessage 0 (Some "C1") (Some "blockhash")
                 [Wallet.mkInstruction "C1" "M1" 100000000]) "sig"));
    try reflexivity.
Defined.

(** ** Failure and price of the requirement builders *)

Lemma validProductName_none (v : Js.Value) :
  Merchant.validProductName v = None
  <-> (forall s, v = Js.Str s -> Js.trim s = "").
Proof.
  destruct v as [| |b|n|s|fields]; cbn [Merchant.validProductName];
    try (split; [intros _ s' [=] | reflexivity]).
  destruct (String.eqb_spec (Js.trim s) "") as [Hempty|Hname].
  - rewrite orb_true_r. split; [|reflexivity]. now intros _ s' [= <-].
  - rewrite orb_false_r. cbn [Js.truthy].
    destruct (String.eqb_spec s "") as [->|Hs]; cbn [negb].
    + now contradiction Hname.
    + split; [discriminate|]. intros H. now contradiction Hname; apply H.
Qed.

(** C9, as stated, fails: before the Solana wallet has been created the
    Solana builder fails although the request names a product. *)
Lemma solana_builder_needs_wallet :
  Merchant.namesProduct Sample.banana = true
  /\ Merchant.getProductDetailsAndRequestSolanaPayment
       Sample.configWithoutWallet Sample.banana
     = Merchant.ThrownError Merchant.walletNotInitialized
  /\ Merchant.issued
       (Merchant.getProductDetailsAndRequestSolanaPayment
          Sample.configWithoutWallet Sample.banana)
     = None.
Proof. repeat split. Qed.

(** C9, amended.  The EVM builder fails exactly when the request names no
    product (the name is missing, not a string, empty or only white
    space); the Solana builder fails exactly when the request names no
    product or the merchant's Solana address has not been assigned.  A
    requirement that is issued asks for 1000000 atomic units on the EVM
    network and for 100000000 lamports on Solana, whatever the product. *)
Theorem builders_fail_and_price (cfg : Merchant.Config) (params : Js.Value) :
  (Merchant.issued (Merchant.getProductDetailsAndRequestPayment cfg params) = None
   <-> Merchant.namesProduct params = false)
  /\
  (Merchant.issued (Merchant.getProductDetailsAndRequestSolanaPayment cfg params) = None
   <-> Merchant.namesProduct params = false \/ Merchant.walletReady cfg = false)
  /\
  (forall requirements,
     Merchant.issued (Merchant.getProductDetailsAndRequestPayment cfg params)
       = Some requirements ->
     Requirements.maxAmountRequired requirements = "1000000")
  /\
  (forall requirements,
     Merchant.issued (Merchant.getProductDetailsAndRequestSolanaPayment cfg params)
       = Some requirements ->
     Requirements.maxAmountRequired requirements = "100000000")
  /\
  (forall v,
     Merchant.productNameOf params = inr v ->
     (Merchant.namesProduct params = false
      <-> (forall s, v = Js.Str s -> Js.trim s = ""))).
Proof.
  split; [|split; [|split; [|split]]].
  - unfold Merchant.getProductDetailsAndRequestPayment, Merchant.namesProduct.
    destruct (Merchant.productNameOf params) as [e|v]; [split; reflexivity|].
    destruct (Merchant.validProductName v); cbn [Merchant.issued];
      split; intros H; try reflexivity; discriminate.
  - unfold Merchant.getProductDetailsAndRequestSolanaPayment, Merchant.namesProduct,
      Merchant.walletReady.
    destruct (Merchant.productNameOf params) as [e|v]; [split; auto|].
    destruct (Merchant.validProductName v); [|split; auto].
    destruct (Merchant.solanaMerchantAddress cfg) as [merchant|]; [|split; auto].
    destruct (String.eqb merchant ""); cbn [Merchant.issued negb]; [split; auto|].
    split; [discriminate|]. intros [H|H]; discriminate.
  - intros requirements H. now apply evm_issued in H.
  - intros requirements H. now apply solana_issued in H.
  - intros v Hv. unfold Merchant.namesProduct. rewrite Hv.
    rewrite <- validProductName_none.
    destruct (Merchant.validProductName v); split; intros H;
      try reflexivity; discriminate.
Qed.

Lemma builders_fail_and_price_witness :
  Merchant.namesProduct (Js.Object [("product_name", Js.Str "   ")]) = false.
Proof.
  apply (proj2 (proj2 (proj2 (proj2 (builders_fail_and_price
                                       Sample.config
                                       (Js.Object [("product_name", Js.Str "   ")])))))
           (Js.Str "   ")).
  - reflexivity.
  - intros s [= <-]. reflexivity.
Defined.

(** * Further properties *)

(** ** Amounts as text *)

Section Decimal.

Import Decimal.

Lemma trimEnd_digits (d : uint) :
  Js.trimEnd (NilEmpty.string_of_uint d) = NilEmpty.string_of_uint d.
Proof.
  induction d as [|d IH|d IH|d IH|d IH|d IH|d IH|d IH|d IH|d IH|d IH];
    cbn [NilEmpty.string_of_uint Js.trimEnd]; try reflexivity;
    rewrite IH; destruct (NilEmpty.string_of_uint d); reflexivity.
Qed.

Lemma trimStart_digits (d : uint) :
  Js.trimStart (NilEmpty.string_of_uint d) = NilEmpty.string_of_uint d.
Proof. destruct d; reflexivity. Qed.

Lemma trim_digits (d : uint) :
  Js.trim (NilEmpty.string_of_uint d) = NilEmpty.string_of_uint d.
Proof. unfold Js.trim. rewrite trimStart_digits. apply trimEnd_digits. Qed.

Ltac digit_value :=
  match goal with
  | |- context [Js.digitValue 10 ?c] =>
      let v := eval vm_compute in (Js.digitValue 10 c) in
      change (Js.digitValue 10 c) with v; cbv iota
  end.

Lemma parseDigitsFrom_acc (d : uint) :
  forall acc : positive,
    Js.parseDigitsFrom 10 (Z.pos acc) (NilEmpty.string_of_uint d)
    = Some (Z.pos (Pos.of_uint_acc d acc)).
Proof.
  induction d as [|d IH|d IH|d IH|d IH|d IH|d IH|d IH|d IH|d IH|d IH];
    intros acc; cbn [NilEmpty.string_of_uint Js.parseDigitsFrom Pos.of_uint_acc];
    try reflexivity; digit_value; rewrite <- IH; f_equal; lia.
Qed.

Lemma parseDigitsFrom_zero (d : uint) :
  Js.parseDigitsFrom 10 0 (NilEmpty.string_of_uint d) = Some (Z.of_N (Pos.of_uint d)).
Proof.
  induction d as [|d IH|d IH|d IH|d IH|d IH|d IH|d IH|d IH|d IH|d IH];
    cbn [NilEmpty.string_of_uint Js.parseDigitsFrom Pos.of_uint];
    try reflexivity; digit_value; [exact IH | apply parseDigitsFrom_acc ..].
Qed.

Lemma parseDigits_digits (d : uint) :
  d <> Nil ->
  Js.parseDigits 10 (NilEmpty.string_of_uint d) = Some (Z.of_N (Pos.of_uint d)).
Proof.
  intros Hd. unfold Js.parseDigits. rewrite <- parseDigitsFrom_zero.
  destruct d; [congruence | reflexivity ..].
Qed.

Lemma StringToBigInt_digits (d : uint) :
  d <> Nil ->
  Js.StringToBigInt (NilEmpty.string_of_uint d) = Some (Z.of_N (Pos.of_uint d)).
Proof.
  intros Hd. unfold Js.StringToBigInt. rewrite trim_digits.
  rewrite <- parseDigitsFrom_zero.
  destruct d as [|d|d|d|d|d|d|d|d|d|d]; [congruence|..];
    destruct d; reflexivity.
Qed.

Lemma StringToBigInt_negative (d : uint) :
  d <> Nil ->
  Js.StringToBigInt (String "-" (NilEmpty.string_of_uint d))
  = Some (- Z.of_N (Pos.of_uint d)).
Proof.
  intros Hd.
  assert (Htrim : Js.trim (String "-" (NilEmpty.string_of_uint d))
                  = String "-" (NilEmpty.string_of_uint d)).
  { unfold Js.trim.
    change (Js.trimStart (String "-" (NilEmpty.string_of_uint d)))
      with (String "-" (NilEmpty.string_of_uint d)).
    cbn [Js.trimEnd]. rewrite trimEnd_digits.
    destruct d; [congruence | reflexivity ..]. }
  unfold Js.StringToBigInt. rewrite Htrim.
  exact (f_equal (option_map Z.opp) (parseDigits_digits d Hd)).
Qed.

End Decimal.

(** Printing a bigint and reading the text back gives the same bigint. *)
Lemma BigInt_toString (z : Z) : Js.StringToBigInt (Js.bigintToString z) = Some z.
Proof.
  unfold Js.bigintToString.
  destruct z as [|p|p]; cbn [Z.to_int NilZero.string_of_int].
  - reflexivity.
  - pose proof (DecimalPos.Unsigned.to_uint_nonnil p) as Hp.
    replace (NilZero.string_of_uint (Pos.to_uint p))
      with (NilEmpty.string_of_uint (Pos.to_uint p))
      by (unfold NilZero.string_of_uint; destruct (Pos.to_uint p); congruence).
    rewrite StringToBigInt_digits by exact Hp.
    now rewrite DecimalPos.Unsigned.of_to.
  - pose proof (DecimalPos.Unsigned.to_uint_nonnil p) as Hp.
    replace (NilZero.string_of_uint (Pos.to_uint p))
      with (NilEmpty.string_of_uint (Pos.to_uint p))
      by (unfold NilZero.string_of_uint; destruct (Pos.to_uint p); congruence).
    rewrite StringToBigInt_negative by exact Hp.
    now rewrite DecimalPos.Unsigned.of_to.
Qed.

(** ** More on the verifier *)

(** X1. verifyPayment accepts a payload exactly when the recipient is the
    required one, both amounts are integer literals that satisfy the
    scheme (equal for EXACT, at most the maximum for UP_TO), the network
    is the required one and the proof has at least 64 characters. *)
Theorem verifyPayment_accepts_iff (payload : Payload.t) (requirements : Requirements.t) :
  Result.isValid (Executor.verifyPayment payload requirements) = true
  <->
  Payload.to payload = Requirements.payTo requirements
  /\ (exists paid required,
        Js.StringToBigInt (Payload.amount payload) = Some paid
        /\ Js.StringToBigInt (Requirements.maxAmountRequired requirements)
           = Some required
        /\ match Requirements.scheme requirements with
           | exact => paid = required
           | up_to => paid <= required
           end)
  /\ Payload.network payload = Requirements.network requirements
  /\ (64 <= String.length (Payload.signature payload))%nat.
Proof.
  destruct (String.eqb_spec (Payload.to payload) (Requirements.payTo requirements))
    as [Hto|Hto].
  2:{ rewrite (verify_wrong_recipient _ _ Hto). cbn.
      split; [discriminate | intros [H _]; contradiction]. }
  destruct (Js.StringToBigInt (Payload.amount payload)) as [paid|] eqn:Hp.
  2:{ rewrite (verify_unparsed_payment _ _ Hto Hp). cbn.
      split; [discriminate | intros (_ & (? & ? & [=] & _) & _)]. }
  destruct (Js.StringToBigInt (Requirements.maxAmountRequired requirements))
    as [required|] eqn:Hr.
  2:{ rewrite (verify_unparsed_required _ _ paid Hto Hp Hr). cbn.
      split; [discriminate | intros (_ & (? & ? & _ & [=] & _) & _)]. }
  rewrite (verify_parsed _ _ paid required Hto Hp Hr), signature_test.
  destruct (String.eqb_spec (Payload.network payload) (Requirements.network requirements))
    as [Hnet|Hnet];
    destruct (Nat.leb_spec 64 (String.length (Payload.signature payload)));
    destruct (Requirements.scheme requirements); cbn [Scheme_eqb andb negb];
    destruct (Z.eqb_spec paid required); destruct (Z.gtb_spec paid required);
    cbn; (split;
          [ try discriminate; intros _; repeat split; try assumption; try lia;
            exists paid, required; repeat split; assumption || lia
          | try reflexivity;
            intros (_ & (paid' & required' & [= <-] & [= <-] & Hamount) & Hn & Hs);
            try contradiction; try lia ]).
Qed.

(** X2. The verdict is decided by the payload's recipient, amount,
    network and proof and by the requirement's scheme, recipient, amount
    and network alone: the sender, the creation time, the asset and the
    descriptive fields are never looked at. *)
Theorem verifyPayment_reads_only
    (payload payload' : Payload.t) (requirements requirements' : Requirements.t) :
  Payload.to payload = Payload.to payload' ->
  Payload.amount payload = Payload.amount payload' ->
  Payload.network payload = Payload.network payload' ->
  Payload.signature payload = Payload.signature payload' ->
  Requirements.scheme requirements = Requirements.scheme requirements' ->
  Requirements.payTo requirements = Requirements.payTo requirements' ->
  Requirements.maxAmountRequired requirements
    = Requirements.maxAmountRequired requirements' ->
  Requirements.network requirements = Requirements.network requirements' ->
  Result.isValid (Executor.verifyPayment payload requirements)
    = Result.isValid (Executor.verifyPayment payload' requirements')
  /\ Result.error (Executor.verifyPayment payload requirements)
     = Result.error (Executor.verifyPayment payload' requirements')
  /\ Result.amount (Executor.verifyPayment payload requirements)
     = Result.amount (Executor.verifyPayment payload' requirements')
  /\ Result.transactionSignature (Executor.verifyPayment payload requirements)
     = Result.transactionSignature (Executor.verifyPayment payload' requirements').
Proof.
  intros Hto Hamount Hnet Hsig Hscheme HpayTo Hmax Hrnet.
  unfold Executor.verifyPayment, Executor.verifyPayment_try.
  rewrite <- Hto, <- Hamount, <- Hnet, <- Hsig, <- Hscheme, <- HpayTo, <- Hmax, <- Hrnet.
  destruct (String.eqb (Payload.to payload) (Requirements.payTo requirements));
    cbn [negb]; [|repeat split].
  destruct (Js.BigInt (Payload.amount payload)) as [e|paid]; [repeat split|].
  destruct (Js.BigInt (Requirements.maxAmountRequired requirements)) as [e|required];
    [repeat split|].
  cbn [Js.bind].
  repeat match goal with |- context [if ?b then _ else _] => destruct b end;
    repeat split.
Qed.

Lemma verifyPayment_reads_only_witness :
  Result.isValid
    (Executor.verifyPayment
       (Sample.payload "M1" "100000000" "net-A" 0)
       (Sample.requirement exact "100000000"))
  = Result.isValid
      (Executor.verifyPayment
         (Payload.mk "someone else" "M1" "100000000" Sample.signature 86400000 "net-A")
         (Requirements.mk exact "net-A" "USDC" "M1" "100000000" "" None None None None
            Js.Null)).
Proof.
  apply (verifyPayment_reads_only
           (Sample.payload "M1" "100000000" "net-A" 0)
           (Payload.mk "someone else" "M1" "100000000" Sample.signature 86400000 "net-A")
           (Sample.requirement exact "100000000")
           (Requirements.mk exact "net-A" "USDC" "M1" "100000000" "" None None None None
              Js.Null));
    reflexivity.
Defined.

(** X3. Amounts are compared as integers, not as text: two payloads (and
    two requirements) whose amount strings denote the same integers, and
    which agree on recipient, network, proof and scheme, get the same
    verdict, the same error and the same confirmed amount. *)
Theorem verifyPayment_amounts_by_value
    (payload payload' : Payload.t) (requirements requirements' : Requirements.t)
    (paid required : Z) :
  Payload.to payload = Payload.to payload' ->
  Payload.network payload = Payload.network payload' ->
  Payload.signature payload = Payload.signature payload' ->
  Requirements.scheme requirements = Requirements.scheme requirements' ->
  Requirements.payTo requirements = Requirements.payTo requirements' ->
  Requirements.network requirements = Requirements.network requirements' ->
  Js.StringToBigInt (Payload.amount payload) = Some paid ->
  Js.StringToBigInt (Payload.amount payload') = Some paid ->
  Js.StringToBigInt (Requirements.maxAmountRequired requirements) = Some required ->
  Js.StringToBigInt (Requirements.maxAmountRequired requirements') = Some required ->
  Result.isValid (Executor.verifyPayment payload requirements)
    = Result.isValid (Executor.verifyPayment payload' requirements')
  /\ Result.error (Executor.verifyPayment payload requirements)
     = Result.error (Executor.verifyPayment payload' requirements')
  /\ Result.amount (Executor.verifyPayment payload requirements)
     = Result.amount (Executor.verifyPayment payload' requirements').
Proof.
  intros Hto Hnet Hsig Hscheme HpayTo Hrnet Hp Hp' Hr Hr'.
  destruct (String.eqb_spec (Payload.to payload) (Requirements.payTo requirements))
    as [Heq|Hne].
  - rewrite (verify_parsed _ _ paid required Heq Hp Hr).
    rewrite (verify_parsed payload' requirements' paid required) by congruence.
    rewrite <- Hnet, <- Hsig, <- Hscheme, <- Hrnet.
    repeat match goal with |- context [if ?b then _ else _] => destruct b end;
      repeat split.
  - rewrite (verify_wrong_recipient _ _ Hne).
    rewrite (verify_wrong_recipient payload' requirements') by congruence.
    rewrite <- Hto, <- HpayTo. repeat split.
Qed.

Lemma verifyPayment_amounts_by_value_witness :
  Result.isValid
    (Executor.verifyPayment
       (Sample.payload "M1" " 0x5F5E100 " "net-A" 0)
       (Sample.requirement exact "0100000000"))
  = Result.isValid
      (Executor.verifyPayment
         (Sample.payload "M1" "100000000" "net-A" 0)
         (Sample.requirement exact "100000000")).
Proof.
  apply (verifyPayment_amounts_by_value
           (Sample.payload "M1" " 0x5F5E100 " "net-A" 0)
           (Sample.payload "M1" "100000000" "net-A" 0)
           (Sample.requirement exact "0100000000")
           (Sample.requirement exact "100000000")
           100000000 100000000);
    reflexivity.
Defined.

(** X4. A rejection carries no payment data: when the result is invalid,
    its signature, amount, sender and recipient are all absent. *)
Theorem verifyPayment_rejection_is_bare
    (payload : Payload.t) (requirements : Requirements.t) :
  Result.isValid (Executor.verifyPayment payload requirements) = false ->
  Result.transactionSignature (Executor.verifyPayment payload requirements) = None
  /\ Result.amount (Executor.verifyPayment payload requirements) = None
  /\ Result.from (Executor.verifyPayment payload requirements) = None
  /\ Result.to (Executor.verifyPayment payload requirements) = None.
Proof.
  unfold Executor.verifyPayment, Executor.verifyPayment_try.
  destruct (String.eqb (Payload.to payload) (Requirements.payTo requirements));
    cbn [negb]; [|repeat split].
  destruct (Js.BigInt (Payload.amount payload)) as [e|paid]; [repeat split|].
  destruct (Js.BigInt (Requirements.maxAmountRequired requirements)) as [e|required];
    [repeat split|].
  cbn [Js.bind].
  repeat match goal with |- context [if ?b then _ else _] => destruct b end;
    cbn; intros H; try discriminate; repeat split.
Qed.

Lemma verifyPayment_rejection_is_bare_witness :
  Result.from
    (Executor.verifyPayment
       (Sample.payload "M1" "100000000" "net-B" 0)
       (Sample.requirement exact "100000000")) = None.
Proof.
  apply (verifyPayment_rejection_is_bare
           (Sample.payload "M1" "100000000" "net-B" 0)
           (Sample.requirement exact "100000000")).
  reflexivity.
Defined.

(** ** On-chain verification *)

(** The merchant wallet's verifyTransaction never fails: a failed
    request, an empty answer and a null value all give "not confirmed".
    It reports a transaction confirmed exactly when the node returned
    one, and it never reports an amount, a sender or a recipient. *)
Lemma verifyTransaction_confirmed_iff
    (getTransaction : string -> Js.Exc (option MerchantWallet.Response))
    (signature : string) :
  (MerchantWallet.confirmed
     (MerchantWallet.verifyTransaction getTransaction signature) = true
   <-> exists info,
         getTransaction signature
         = inr (Some (MerchantWallet.mkResponse (Some info))))
  /\ (MerchantWallet.confirmed
        (MerchantWallet.verifyTransaction getTransaction signature) = false ->
      MerchantWallet.verifyTransaction getTransaction signature
      = MerchantWallet.unconfirmed)
  /\ MerchantWallet.amount
       (MerchantWallet.verifyTransaction getTransaction signature) = None
  /\ MerchantWallet.from
       (MerchantWallet.verifyTransaction getTransaction signature) = None
  /\ MerchantWallet.to
       (MerchantWallet.verifyTransaction getTransaction signature) = None.
Proof.
  unfold MerchantWallet.verifyTransaction.
  destruct (getTransaction signature) as [e|[[[info|]]|]]; cbn;
    repeat split; try discriminate; try reflexivity; eauto;
    intros [info' H]; discriminate.
Qed.

(** X5. On-chain verification by the merchant's executor is valid exactly
    when the node returned the transaction, whatever amount and sender
    were expected: neither is compared with anything.  A valid result
    names the signature and no amount, sender or recipient; every other
    case, a failed request included, is reported as "Transaction not
    found or not confirmed". *)
Theorem onchain_valid_iff
    (getTransaction : string -> Js.Exc (option MerchantWallet.Response))
    (txSignature : string) (expectedAmount : Z) (expectedFrom : option Address) :
  (Result.isValid
     (OnChain.verify getTransaction txSignature expectedAmount expectedFrom) = true
   <-> exists info,
         getTransaction txSignature
         = inr (Some (MerchantWallet.mkResponse (Some info))))
  /\ (Result.isValid
        (OnChain.verify getTransaction txSignature expectedAmount expectedFrom) = true ->
      OnChain.verify getTransaction txSignature expectedAmount expectedFrom
      = Result.mk true (Some txSignature) None None None None)
  /\ (Result.isValid
        (OnChain.verify getTransaction txSignature expectedAmount expectedFrom) = false ->
      OnChain.verify getTransaction txSignature expectedAmount expectedFrom
      = Result.invalid OnChain.notConfirmed)
  /\ (forall expectedAmount' expectedFrom',
        OnChain.verify getTransaction txSignature expectedAmount' expectedFrom'
        = OnChain.verify getTransaction txSignature expectedAmount expectedFrom).
Proof.
  unfold OnChain.verify, OnChain.verifyOnChainTransaction,
    MerchantWallet.verifyTransaction.
  destruct (getTransaction txSignature) as [e|[[[info|]]|]]; cbn;
    repeat split; try discriminate; try reflexivity; eauto;
    intros [info' H]; discriminate.
Qed.

Lemma onchain_valid_iff_witness :
  OnChain.verify (fun _ => inl (Js.mkError "fetch failed")) "sig" 100000000 None
  = Result.invalid OnChain.notConfirmed.
Proof.
  apply (proj1 (proj2 (proj2 (onchain_valid_iff
                                (fun _ => inl (Js.mkError "fetch failed"))
                                "sig" 100000000 None)))).
  reflexivity.
Defined.

(** ** More on the confirmation poller *)

Section PollerRuns.

Import Wallet.

Variables (sdk : Sdk) (signature : string) (maxRetries : Z).

Abbreviation answer n := (getSignatureStatuses sdk n signature).

Lemma count_cons (p : Event -> bool) (e : Event) (t : list Event) :
  count p (e :: t) = ((if p e then 1 else 0) + count p t)%nat.
Proof. unfold count. cbn. now destruct (p e). Qed.

(** Every run of the loop only queries and sleeps, within its budget. *)
Lemma confirmLoop_events (fuel : nat) :
  forall (retries : Z) (st : State),
    exists out events,
      confirmLoop fuel sdk signature maxRetries retries st
      = (out, mkState (polls st + count isQuery events) (trace st ++ events))
      /\ Forall (Poll.isPolling signature) events
      /\ (count isQuery events <= Z.to_nat (maxRetries - retries))%nat
      /\ (count isSleep events <= count isQuery events)%nat
      /\ ((Z.to_nat (maxRetries - retries) <= fuel)%nat -> out <> OutOfFuel).
Proof.
  induction fuel as [|fuel IH]; intros retries st.
  - cbn [confirmLoop]. destruct (Z.ltb_spec retries maxRetries).
    + exists OutOfFuel, []. rewrite app_nil_r, Nat.add_0_r. destruct st.
      repeat split; try constructor; try (cbn; lia).
    + exists (Throws confirmationTimeout), [].
      rewrite app_nil_r, Nat.add_0_r. destruct st.
      repeat split; try constructor; try (cbn; lia). discriminate.
  - rewrite confirmLoop_turn.
    destruct (Z.ltb_spec retries maxRetries) as [Hlt|Hge].
    2:{ exists (Throws confirmationTimeout), [].
        rewrite app_nil_r, Nat.add_0_r. destruct st.
        repeat split; try constructor; try (cbn; lia). discriminate. }
    assert (Hstop :
              forall out : Outcome unit, out <> OutOfFuel ->
                exists out' events,
                  (out, afterQuery signature st)
                  = (out', mkState (polls st + count isQuery events)
                             (trace st ++ events))
                  /\ Forall (Poll.isPolling signature) events
                  /\ (count isQuery events <= Z.to_nat (maxRetries - retries))%nat
                  /\ (count isSleep events <= count isQuery events)%nat
                  /\ ((Z.to_nat (maxRetries - retries) <= S fuel)%nat ->
                      out' <> OutOfFuel)).
    { intros out Hout. exists out, [EvGetSignatureStatuses signature].
      repeat split.
      - unfold afterQuery. cbn. f_equal. f_equal. lia.
      - repeat constructor.
      - cbn. lia.
      - cbn. lia.
      - intros _. exact Hout. }
    assert (Hnext :
              exists out events,
                confirmLoop fuel sdk signature maxRetries (retries + 1)
                  (afterSleep (afterQuery signature st))
                = (out, mkState (polls st + count isQuery events)
                          (trace st ++ events))
                /\ Forall (Poll.isPolling signature) events
                /\ (count isQuery events <= Z.to_nat (maxRetries - retries))%nat
                /\ (count isSleep events <= count isQuery events)%nat
                /\ ((Z.to_nat (maxRetries - retries) <= S fuel)%nat ->
                    out <> OutOfFuel)).
    { destruct (IH (retries + 1) (afterSleep (afterQuery signature st)))
        as (out & events & Hrun & Hall & Hq & Hs & Hfuel).
      exists out, (EvGetSignatureStatuses signature :: EvSleep 1000 :: events).
      repeat split.
      - rewrite Hrun. unfold afterSleep, afterQuery. cbn [polls trace].
        rewrite !count_cons. cbn [isQuery]. rewrite <- !app_assoc. cbn [app].
        f_equal. f_equal. lia.
      - constructor; [now left|]. constructor; [now right|]. exact Hall.
      - rewrite !count_cons. cbn [isQuery]. lia.
      - rewrite !count_cons. cbn [isQuery isSleep]. lia.
      - intros H. apply Hfuel. lia. }
    destruct (observesSuccess (answer (polls st))).
    + apply Hstop. discriminate.
    + destruct (thrownBy (answer (polls st))) as [e|]; [|exact Hnext].
      destruct (retries =? maxRetries - 1); [|exact Hnext].
      apply Hstop. discriminate.
Qed.

(** A run that returns has seen success at some poll within its budget,
    and at none before. *)
Lemma confirmLoop_returns (fuel : nat) :
  forall (retries : Z) (st st' : State),
    confirmLoop fuel sdk signature maxRetries retries st = (Returns tt, st') ->
    exists k,
      (k < fuel)%nat
      /\ retries + Z.of_nat k < maxRetries
      /\ (forall j, (j < k)%nat -> observesSuccess (answer (polls st + j)) = false)
      /\ observesSuccess (answer (polls st + k)) = true.
Proof.
  induction fuel as [|fuel IH]; intros retries st st'.
  - cbn [confirmLoop]. destruct (retries <? maxRetries); discriminate.
  - rewrite confirmLoop_turn.
    destruct (Z.ltb_spec retries maxRetries) as [Hlt|Hge]; [|discriminate].
    assert (Hnext :
              confirmLoop fuel sdk signature maxRetries (retries + 1)
                (afterSleep (afterQuery signature st)) = (Returns tt, st') ->
              observesSuccess (answer (polls st)) = false ->
              exists k,
                (k < S fuel)%nat
                /\ retries + Z.of_nat k < maxRetries
                /\ (forall j, (j < k)%nat ->
                      observesSuccess (answer (polls st + j)) = false)
                /\ observesSuccess (answer (polls st + k)) = true).
    { intros Hrun Hfirst.
      destruct (IH _ _ _ Hrun) as (k & Hk & Hbudget & Hbefore & Hat).
      cbn [afterSleep afterQuery polls] in Hbefore, Hat.
      exists (S k). repeat split; try lia.
      - intros [|j] Hj.
        + now rewrite Nat.add_0_r.
        + replace (polls st + S j)%nat with (S (polls st) + j)%nat by lia.
          apply Hbefore. lia.
      - now replace (polls st + S k)%nat with (S (polls st) + k)%nat by lia. }
    destruct (observesSuccess (answer (polls st))) eqn:Hfirst.
    + intros _. exists 0%nat. rewrite Nat.add_0_r.
      repeat split; try lia. exact Hfirst.
    + destruct (thrownBy (answer (polls st))) as [e|]; [|intros H; now apply Hnext].
      destruct (retries =? maxRetries - 1); [discriminate|].
      intros H; now apply Hnext.
Qed.

(** Without a poll that sees success the loop gives up after its whole
    budget, with the error of the last poll or with the timeout. *)
Lemma confirmLoop_gives_up (n : nat) :
  forall (fuel : nat) (retries : Z) (st : State),
    (n <= fuel)%nat ->
    retries + Z.of_nat n = maxRetries ->
    (forall j, (j < n)%nat -> observesSuccess (answer (polls st + j)) = false) ->
    confirmLoop fuel sdk signature maxRetries retries st
    = Poll.gaveUp sdk signature st n.
Proof.
  induction n as [|n IH]; intros fuel retries st Hfuel Hsum Hnone.
  - rewrite confirmLoop_done by lia. reflexivity.
  - destruct fuel as [|fuel]; [lia|].
    rewrite confirmLoop_turn.
    destruct (Z.ltb_spec retries maxRetries); [|lia].
    pose proof (Hnone 0%nat ltac:(lia)) as H0. rewrite Nat.add_0_r in H0.
    rewrite H0.
    assert (Hnext :
              (0 < n)%nat ->
              confirmLoop fuel sdk signature maxRetries (retries + 1)
                (afterSleep (afterQuery signature st))
              = Poll.gaveUp sdk signature st (S n)).
    { intros Hpos.
      rewrite (IH fuel (retries + 1) (afterSleep (afterQuery signature st)));
        [|lia|lia|].
      - destruct n as [|n]; [lia|].
        unfold Poll.gaveUp. cbn [afterSleep afterQuery polls trace].
        replace (S (polls st) + n)%nat with (polls st + S n)%nat by lia.
        destruct (thrownBy (answer (polls st + S n)));
          cbn [rounds]; rewrite <- !app_assoc; cbn [app]; f_equal; f_equal; lia.
      - intros j Hj. cbn [afterSleep afterQuery polls].
        replace (S (polls st) + j)%nat with (polls st + S j)%nat by lia.
        apply Hnone. lia. }
    destruct n as [|n].
    + unfold Poll.gaveUp. rewrite Nat.add_0_r.
      destruct (thrownBy (answer (polls st))) as [e|].
      * destruct (Z.eqb_spec retries (maxRetries - 1)); [|lia].
        unfold afterQuery. cbn [rounds app]. f_equal; f_equal; lia.
      * rewrite confirmLoop_done by lia.
        unfold afterSleep, afterQuery. cbn [polls trace rounds].
        rewrite <- app_assoc. cbn [app]. f_equal; f_equal; lia.
    + destruct (thrownBy (answer (polls st))) as [e|].
      * destruct (Z.eqb_spec retries (maxRetries - 1)); [lia|].
        apply Hnext. lia.
      * apply Hnext. lia.
Qed.

End PollerRuns.

(** X6. Every run of confirmTransaction ends, whatever the node answers:
    it makes at most maxRetries status queries (none if maxRetries is not
    positive), sleeps at most once per query, and does nothing but query
    the status of this signature and sleep one second. *)
Theorem confirmTransaction_bounded
    (sdk : Wallet.Sdk) (signature : string) (maxRetries : option Z)
    (st : Wallet.State) :
  exists out events,
    Wallet.confirmTransaction sdk signature maxRetries st
    = (out,
       Wallet.mkState (Wallet.polls st + Wallet.count Wallet.isQuery events)
                      (Wallet.trace st ++ events))
    /\ out <> Wallet.OutOfFuel
    /\ Forall (Poll.isPolling signature) events
    /\ (Wallet.count Wallet.isQuery events
        <= Z.to_nat (Wallet.attempts maxRetries))%nat
    /\ (Wallet.count Wallet.isSleep events
        <= Wallet.count Wallet.isQuery events)%nat.
Proof.
  unfold Wallet.confirmTransaction. fold (Wallet.attempts maxRetries).
  destruct (confirmLoop_events sdk signature (Wallet.attempts maxRetries)
              (Z.to_nat (Wallet.attempts maxRetries)) 0 st)
    as (out & events & Hrun & Hall & Hq & Hs & Hfuel).
  exists out, events. rewrite Z.sub_0_r in *.
  repeat split; try assumption. apply Hfuel. lia.
Qed.

(** X7. confirmTransaction returns normally only if some poll within the
    budget saw the transaction confirmed or finalized without error: the
    run then stopped at the first such poll. *)
Theorem confirmTransaction_returns_only_on_success
    (sdk : Wallet.Sdk) (signature : string) (maxRetries : option Z)
    (st st' : Wallet.State) :
  Wallet.confirmTransaction sdk signature maxRetries st = (Wallet.Returns tt, st') ->
  exists k,
    Z.of_nat k < Wallet.attempts maxRetries
    /\ (forall j, (j < k)%nat ->
          Wallet.observesSuccess
            (Wallet.getSignatureStatuses sdk (Wallet.polls st + j) signature) = false)
    /\ Wallet.observesSuccess
         (Wallet.getSignatureStatuses sdk (Wallet.polls st + k) signature) = true
    /\ st' = Wallet.mkState
               (Wallet.polls st + k + 1)
               (Wallet.trace st ++ Wallet.rounds signature k
                  ++ [Wallet.EvGetSignatureStatuses signature]).
Proof.
  unfold Wallet.confirmTransaction. fold (Wallet.attempts maxRetries).
  intros Hrun.
  destruct (confirmLoop_returns _ _ _ _ _ _ _ Hrun)
    as (k & Hk & Hbudget & Hbefore & Hat).
  exists k. repeat split; try assumption; try lia.
  rewrite (confirmLoop_first_success sdk signature (Wallet.attempts maxRetries) k
             _ 0 st Hk Hbudget Hbefore Hat) in Hrun.
  now injection Hrun as <-.
Qed.

Lemma confirmTransaction_returns_only_on_success_witness :
  exists k,
    Z.of_nat k < 30
    /\ Wallet.observesSuccess
         (Wallet.getSignatureStatuses Sample.confirmsThird k "sig") = true.
Proof.
  destruct (confirmTransaction_returns_only_on_success
              Sample.confirmsThird "sig" None Wallet.init
              (Wallet.mkState 3
                 [Wallet.EvGetSignatureStatuses "sig"; Wallet.EvSleep 1000;
                  Wallet.EvGetSignatureStatuses "sig"; Wallet.EvSleep 1000;
                  Wallet.EvGetSignatureStatuses "sig"])
              eq_refl)
    as (k & Hk & _ & Hat & _).
  exists k. split; [exact Hk | exact Hat].
Defined.

(** X8. When no poll within the budget sees success, confirmTransaction
    fails after exactly its budget of status queries.  The error is the
    one the last poll raised (a failed request, or "Transaction failed"
    for a transaction seen confirmed with an execution error) and the
    timeout if the last poll raised none; an error raised by an earlier
    poll is dropped, so a transaction that has failed on chain is
    reported only when the budget is used up. *)
Theorem confirmTransaction_gives_up
    (sdk : Wallet.Sdk) (signature : string) (maxRetries : option Z)
    (st : Wallet.State) :
  (forall j, (j < Z.to_nat (Wallet.attempts maxRetries))%nat ->
     Wallet.observesSuccess
       (Wallet.getSignatureStatuses sdk (Wallet.polls st + j) signature) = false) ->
  Wallet.confirmTransaction sdk signature maxRetries st
  = Poll.gaveUp sdk signature st (Z.to_nat (Wallet.attempts maxRetries)).
Proof.
  intros Hnone.
  unfold Wallet.confirmTransaction. fold (Wallet.attempts maxRetries).
  destruct (Z.le_gt_cases (Wallet.attempts maxRetries) 0) as [Hle|Hgt].
  - rewrite confirmLoop_done by lia.
    replace (Z.to_nat (Wallet.attempts maxRetries)) with 0%nat by lia.
    reflexivity.
  - apply confirmLoop_gives_up; [lia | lia | exact Hnone].
Qed.

Lemma confirmTransaction_gives_up_witness :
  Wallet.confirmTransaction (Poll.failedOnChain "{}") "sig" None Wallet.init
  = (Wallet.Throws (Js.mkError "Transaction failed: {}"),
     Wallet.mkState 30
       (Wallet.rounds "sig" 29 ++ [Wallet.EvGetSignatureStatuses "sig"])).
Proof.
  apply (confirmTransaction_gives_up (Poll.failedOnChain "{}") "sig" None Wallet.init).
  intros j _. reflexivity.
Defined.

(** ** More on transfers and airdrops *)

Section Transfers.

Import Wallet.

Variables (sdk : Sdk) (self destination : Address) (amount : Z).

(** transferSol, step by step. *)
Lemma transferSol_run (st : State) :
  transferSol sdk self destination amount st =
    match getLatestBlockhash sdk with
    | inl e => (Returns (Poll.failure e), Poll.requested st)
    | inr blockhash =>
        match lamports sdk amount with
        | inl e => (Returns (Poll.failure e), Poll.requested st)
        | inr amount' =>
            match signTransactionMessageWithSigners sdk
                    (Poll.transferMessage self destination blockhash amount') with
            | inl e => (Returns (Poll.failure e), Poll.requested st)
            | inr tx =>
                match sendTransaction sdk tx with
                | inl e => (Returns (Poll.failure e), Poll.submitted tx st)
                | inr _ =>
                    match confirmLoop (Z.to_nat defaultMaxRetries) sdk
                            (txSignature tx) defaultMaxRetries 0 (Poll.submitted tx st) with
                    | (Returns _, st') =>
                        (Returns (mkTransfer true (Some (txSignature tx)) None), st')
                    | (Throws e, st') => (Returns (Poll.failure e), st')
                    | (OutOfFuel, st') => (OutOfFuel, st')
                    end
                end
            end
        end
    end.
Proof.
  unfold transferSol, tryCatch, bind, emit, lift, ret, throw, confirmTransaction,
    Poll.transferMessage, Poll.failure, Poll.requested, Poll.submitted.
  cbn [polls trace].
  destruct (getLatestBlockhash sdk) as [e|blockhash]; [reflexivity|].
  destruct (lamports sdk amount) as [e|amount']; [reflexivity|].
  destruct (signTransactionMessageWithSigners sdk _) as [e|tx]; [reflexivity|].
  destruct (sendTransaction sdk tx) as [e|[]];
    cbn [polls trace]; rewrite <- app_assoc; cbn [app]; [reflexivity|].
  destruct (confirmLoop _ _ _ _ _ _) as [[[]|e|] st']; reflexivity.
Qed.

End Transfers.



(** X10. When transferSol fails before the confirmation, it stops there:
    if fetching the blockhash, checking the amount or signing fails,
    nothing is submitted and nothing is polled; if the submission is
    rejected, the status is never polled.  In each case the answer is a
    failure carrying that error's message. *)
Theorem transferSol_early_failure
    (sdk : Wallet.Sdk) (self destination : Address) (amount : Z)
    (st : Wallet.State) (e : Js.Error) :
  (Wallet.getLatestBlockhash sdk = inl e
   \/ (exists blockhash,
         Wallet.getLatestBlockhash sdk = inr blockhash
         /\ (Wallet.lamports sdk amount = inl e
             \/ exists amount',
                  Wallet.lamports sdk amount = inr amount'
                  /\ Wallet.signTransactionMessageWithSigners sdk
                       (Poll.transferMessage self destination blockhash amount')
                     = inl e)) ->
   Wallet.transferSol sdk self destination amount st
   = (Wallet.Returns (Wallet.mkTransfer false None (Some (Js.message e))),
      Wallet.mkState (Wallet.polls st)
        (Wallet.trace st ++ [Wallet.EvGetLatestBlockhash])))
  /\
  (forall blockhash amount' tx,
     Wallet.getLatestBlockhash sdk = inr blockhash ->
     Wallet.lamports sdk amount = inr amount' ->
     Wallet.signTransactionMessageWithSigners sdk
       (Poll.transferMessage self destination blockhash amount') = inr tx ->
     Wallet.sendTransaction sdk tx = inl e ->
     Wallet.transferSol sdk self destination amount st
     = (Wallet.Returns (Wallet.mkTransfer false None (Some (Js.message e))),
        Wallet.mkState (Wallet.polls st)
          (Wallet.trace st
             ++ [Wallet.EvGetLatestBlockhash; Wallet.EvSendTransaction tx]))).
Proof.
  rewrite transferSol_run. split.
  - intros [H | (blockhash & Hb & [H | (amount' & Ha & H)])].
    + now rewrite H.
    + now rewrite Hb, H.
    + now rewrite Hb, Ha, H.
  - intros blockhash amount' tx Hb Ha Hsign Hsend.
    now rewrite Hb, Ha, Hsign, Hsend.
Qed.

Lemma transferSol_early_failure_witness :
  Wallet.transferSol
    (Wallet.mkSdk (inl (Js.mkError "fetch failed")) (fun a => inr a)
       (fun m => inr (Wallet.mkSigned m "sig")) (fun _ => inr tt)
       (fun _ _ => Sample.success))
    "C1" "M1" 100000000 Wallet.init
  = (Wallet.Returns (Wallet.mkTransfer false None (Some "fetch failed")),
     Wallet.mkState 0 [Wallet.EvGetLatestBlockhash]).
Proof.
  apply (proj1 (transferSol_early_failure
                  (Wallet.mkSdk (inl (Js.mkError "fetch failed")) (fun a => inr a)
                     (fun m => inr (Wallet.mkSigned m "sig")) (fun _ => inr tt)
                     (fun _ _ => Sample.success))
                  "C1" "M1" 100000000 Wallet.init (Js.mkError "fetch failed"))).
  left. reflexivity.
Defined.

Section Airdrops.

Import Wallet.

Variables (sdk : Sdk) (rpcRequestAirdrop : Address -> Z -> Js.Exc string)
          (self : Address) (amount : Z).

(** requestAirdrop, step by step. *)
Lemma requestAirdrop_run (st : State) :
  Airdrop.requestAirdrop sdk rpcRequestAirdrop self amount st =
    match lamports sdk amount with
    | inl e => (Throws e, st)
    | inr amount' =>
        match rpcRequestAirdrop self amount' with
        | inl e => (Throws e, st)
        | inr signature =>
            match confirmLoop (Z.to_nat defaultMaxRetries) sdk signature
                    defaultMaxRetries 0 st with
            | (Returns _, st') => (Returns signature, st')
            | (Throws e, st') => (Throws e, st')
            | (OutOfFuel, st') => (OutOfFuel, st')
            end
        end
    end.
Proof.
  unfold Airdrop.requestAirdrop, tryCatch, bind, lift, ret, throw, confirmTransaction.
  destruct (lamports sdk amount) as [e|amount']; [reflexivity|].
  destruct (rpcRequestAirdrop self amount') as [e|signature]; [reflexivity|].
  destruct (confirmLoop _ _ _ _ _ _) as [[[]|e|] st']; reflexivity.
Qed.

End Airdrops.

(** X11. requestAirdrop returns a signature exactly when the amount was
    accepted, the node answered the airdrop request with that signature
    and some poll within 30 saw it confirmed; it then stopped at the
    first such poll. *)
Theorem requestAirdrop_returns_iff
    (sdk : Wallet.Sdk) (rpcRequestAirdrop : Address -> Z -> Js.Exc string)
    (self : Address) (amount : Z) (st st' : Wallet.State) (signature : string) :
  Airdrop.requestAirdrop sdk rpcRequestAirdrop self amount st
  = (Wallet.Returns signature, st')
  <->
  exists amount' k,
    Wallet.lamports sdk amount = inr amount'
    /\ rpcRequestAirdrop self amount' = inr signature
    /\ (k < 30)%nat
    /\ (forall j, (j < k)%nat ->
          Wallet.observesSuccess
            (Wallet.getSignatureStatuses sdk (Wallet.polls st + j) signature) = false)
    /\ Wallet.observesSuccess
         (Wallet.getSignatureStatuses sdk (Wallet.polls st + k) signature) = true
    /\ st' = Wallet.mkState
               (Wallet.polls st + k + 1)
               (Wallet.trace st ++ Wallet.rounds signature k
                  ++ [Wallet.EvGetSignatureStatuses signature]).
Proof.
  rewrite requestAirdrop_run. split.
  - destruct (Wallet.lamports sdk amount) as [e|amount']; [discriminate|].
    destruct (rpcRequestAirdrop self amount') as [e|signature'] eqn:Hrpc;
      [discriminate|].
    destruct (Wallet.confirmLoop _ _ _ _ _ _) as [[[]|e|] st''] eqn:Hloop;
      try discriminate.
    intros [= <- <-].
    destruct (confirmLoop_returns _ _ _ _ _ _ _ Hloop)
      as (k & Hk & Hbudget & Hbefore & Hat).
    exists amount', k. repeat split; try assumption; try (unfold Wallet.defaultMaxRetries in *; lia).
    rewrite (confirmLoop_first_success sdk signature' Wallet.defaultMaxRetries k
               _ 0 st Hk Hbudget Hbefore Hat) in Hloop.
    now injection Hloop as <-.
  - intros (amount' & k & Ha & Hrpc & Hk & Hbefore & Hat & ->).
    rewrite Ha, Hrpc.
    rewrite (confirmLoop_first_success sdk signature Wallet.defaultMaxRetries k
               (Z.to_nat Wallet.defaultMaxRetries) 0 st);
      try assumption; try reflexivity; unfold Wallet.defaultMaxRetries; lia.
Qed.

(** X12. requestAirdrop never submits a transaction and always ends.  An
    error of the amount check or of the airdrop request is passed on
    before any status query; when the airdrop is not seen confirmed
    within 30 polls, the error the poller gave up with is passed on. *)
Theorem requestAirdrop_failures
    (sdk : Wallet.Sdk) (rpcRequestAirdrop : Address -> Z -> Js.Exc string)
    (self : Address) (amount : Z) (st : Wallet.State) :
  (exists out events,
     Airdrop.requestAirdrop sdk rpcRequestAirdrop self amount st
     = (out, Wallet.mkState (Wallet.polls st + Wallet.count Wallet.isQuery events)
               (Wallet.trace st ++ events))
     /\ out <> Wallet.OutOfFuel
     /\ Wallet.count Wallet.isSend events = 0%nat
     /\ (Wallet.count Wallet.isQuery events <= 30)%nat)
  /\
  (forall e,
     Wallet.lamports sdk amount = inl e
     \/ (exists amount',
           Wallet.lamports sdk amount = inr amount'
           /\ rpcRequestAirdrop self amount' = inl e) ->
     Airdrop.requestAirdrop sdk rpcRequestAirdrop self amount st = (Wallet.Throws e, st))
  /\
  (forall amount' signature,
     Wallet.lamports sdk amount = inr amount' ->
     rpcRequestAirdrop self amount' = inr signature ->
     (forall j, (j < 30)%nat ->
        Wallet.observesSuccess
          (Wallet.getSignatureStatuses sdk (Wallet.polls st + j) signature) = false) ->
     exists e st',
       Poll.gaveUp sdk signature st 30 = (Wallet.Throws e, st')
       /\ Airdrop.requestAirdrop sdk rpcRequestAirdrop self amount st
          = (Wallet.Throws e, st')).
Proof.
  rewrite requestAirdrop_run.
  assert (Hnone : forall out : Wallet.Outcome string,
            out <> Wallet.OutOfFuel ->
            exists out' events,
              (out, st)
              = (out', Wallet.mkState
                         (Wallet.polls st + Wallet.count Wallet.isQuery events)
                         (Wallet.trace st ++ events))
              /\ out' <> Wallet.OutOfFuel
              /\ Wallet.count Wallet.isSend events = 0%nat
              /\ (Wallet.count Wallet.isQuery events <= 30)%nat).
  { intros out Hout. exists out, []. rewrite app_nil_r, Nat.add_0_r. destruct st.
    repeat split; try assumption. cbn. lia. }
  split; [|split].
  - destruct (Wallet.lamports sdk amount) as [e|amount'];
      [apply Hnone; discriminate|].
    destruct (rpcRequestAirdrop self amount') as [e|signature];
      [apply Hnone; discriminate|].
    destruct (confirmLoop_events sdk signature Wallet.defaultMaxRetries
                (Z.to_nat Wallet.defaultMaxRetries) 0 st)
      as (out & events & Hrun & Hall & Hq & Hs & Hfuel).
    rewrite Hrun.
    assert (Hsend : Wallet.count Wallet.isSend events = 0%nat).
    { clear - Hall. induction Hall as [|e events [->| ->] _ IH]; [reflexivity|..];
        rewrite count_cons; cbn; exact IH. }
    specialize (Hfuel ltac:(unfold Wallet.defaultMaxRetries; lia)).
    destruct out as [[]|e|]; [| |contradiction];
      eexists _, events; repeat split; try assumption; try discriminate;
      unfold Wallet.defaultMaxRetries in Hq; lia.
  - intros e [H | (amount' & Ha & H)].
    + now rewrite H.
    + now rewrite Ha, H.
  - intros amount' signature Ha Hrpc Hnosuccess.
    rewrite Ha, Hrpc.
    rewrite (confirmLoop_gives_up sdk signature Wallet.defaultMaxRetries 30
               (Z.to_nat Wallet.defaultMaxRetries) 0 st);
      [|unfold Wallet.defaultMaxRetries; lia|reflexivity|exact Hnosuccess].
    unfold Poll.gaveUp.
    destruct (Wallet.thrownBy _) as [e|]; eexists _, _; split; reflexivity.
Qed.

(** ** From the merchant's requirement to the verified payment *)

Lemma validProductName_some (v : Js.Value) (name : string) :
  Merchant.validProductName v = Some name ->
  v = Js.Str name /\ name <> "" /\ Js.trim name <> "".
Proof.
  destruct v as [| |b|n|s|fields]; cbn [Merchant.validProductName]; try discriminate.
  cbn [Js.truthy].
  destruct (String.eqb_spec s ""); cbn [negb orb]; [discriminate|].
  destruct (String.eqb_spec (Js.trim s) ""); [discriminate|].
  intros [= <-]. repeat split; assumption.
Qed.

(** X13. A requirement issued by the Solana builder is met by exactly one
    amount: a payload to its recipient on its network with a well-formed
    proof is accepted if and only if its amount reads as 100000000. *)
Theorem solana_requirement_paid_exactly
    (cfg : Merchant.Config) (params : Js.Value)
    (requirements : Requirements.t) (payload : Payload.t) :
  Merchant.issued (Merchant.getProductDetailsAndRequestSolanaPayment cfg params)
    = Some requirements ->
  Payload.to payload = Requirements.payTo requirements ->
  Payload.network payload = Requirements.network requirements ->
  (64 <= String.length (Payload.signature payload))%nat ->
  (Result.isValid (Executor.verifyPayment payload requirements) = true
   <-> Js.StringToBigInt (Payload.amount payload) = Some 100000000).
Proof.
  intros Hissued Hto Hnet Hsig.
  destruct (solana_issued cfg params requirements Hissued)
    as (_ & Hscheme & _ & _ & _ & Hmax).
  assert (Hrequired :
            Js.StringToBigInt (Requirements.maxAmountRequired requirements)
            = Some 100000000) by now rewrite Hmax.
  destruct (Js.StringToBigInt (Payload.amount payload)) as [paid|] eqn:Hp.
  - rewrite (verify_parsed _ _ paid 100000000 Hto Hp Hrequired).
    rewrite signature_test, Hscheme.
    apply String.eqb_eq in Hnet. apply Nat.leb_le in Hsig.
    rewrite Hnet, Hsig. cbn [Scheme_eqb andb negb].
    destruct (Z.eqb_spec paid 100000000) as [->|Hne]; cbn.
    + split; reflexivity.
    + split; [discriminate | intros [= H]; contradiction].
  - rewrite (verify_unparsed_payment _ _ Hto Hp). cbn.
    split; discriminate.
Qed.

Lemma solana_requirement_paid_exactly_witness :
  Result.isValid
    (Executor.verifyPayment
       (Sample.payload "M1" "0100000000" "solana-devnet" 0)
       {| Requirements.scheme := exact;
          Requirements.network := "solana-devnet";
          Requirements.asset := "SOL";
          Requirements.payTo := "M1";
          Requirements.maxAmountRequired := "100000000";
          Requirements.description := "Payment for: banana";
          Requirements.resource := Some "https://example.com/product/banana";
          Requirements.mimeType := Some "application/json";
          Requirements.maxTimeoutSeconds := Some 1200;
          Requirements.tokenMint := None;
          Requirements.extra :=
            Merchant.productExtra "SOL" "2" [("blockchain", Js.Str "solana")] "banana"
       |}) = true.
Proof.
  refine (proj2 (solana_requirement_paid_exactly Sample.config Sample.banana _
                   (Sample.payload "M1" "0100000000" "solana-devnet" 0)
                   eq_refl eq_refl eq_refl _) eq_refl).
  apply Nat.leb_le. reflexivity.
Defined.

(** X14. A requirement issued by either builder records the product it
    was asked for: its description and resource end in the product name,
    and the name the client agent reads back from it
    (extra.product.name) is that product name. *)
Theorem issued_requirement_names_product
    (cfg : Merchant.Config) (params : Js.Value) (requirements : Requirements.t) :
  Merchant.issued (Merchant.getProductDetailsAndRequestPayment cfg params)
    = Some requirements
  \/ Merchant.issued (Merchant.getProductDetailsAndRequestSolanaPayment cfg params)
     = Some requirements ->
  exists name,
    Merchant.productNameOf params = inr (Js.Str name)
    /\ Js.trim name <> ""
    /\ Requirements.description requirements = "Payment for: " ++ name
    /\ Requirements.resource requirements
       = Some ("https://example.com/product/" ++ name)
    /\ Client.productNameOf requirements = Js.Str name.
Proof.
  unfold Merchant.getProductDetailsAndRequestPayment,
    Merchant.getProductDetailsAndRequestSolanaPayment.
  destruct (Merchant.productNameOf params) as [e|v];
    [intros [H|H]; discriminate|].
  destruct (Merchant.validProductName v) as [name|] eqn:Hv;
    [|intros [H|H]; discriminate].
  destruct (validProductName_some v name Hv) as (-> & Hname & Htrim).
  assert (Htruthy : String.eqb name "" = false) by now apply String.eqb_neq.
  intros [H|H].
  - cbn [Merchant.issued] in H. injection H as <-.
    exists name. repeat split; try assumption.
    unfold Client.productNameOf, JsMore.or. cbn. now rewrite Htruthy.
  - destruct (Merchant.solanaMerchantAddress cfg) as [merchant|]; [|discriminate].
    destruct (String.eqb merchant ""); [discriminate|].
    cbn [Merchant.issued] in H. injection H as <-.
    exists name. repeat split; try assumption.
    unfold Client.productNameOf, JsMore.or. cbn. now rewrite Htruthy.
Qed.

Lemma issued_requirement_names_product_witness :
  exists name, Merchant.productNameOf Sample.banana = inr (Js.Str name).
Proof.
  destruct (issued_requirement_names_product Sample.config Sample.banana _
              (or_introl eq_refl))
    as (name & Hname & _).
  exists name. exact Hname.
Defined.

Lemma hex_length (bytes : list Byte.byte) :
  String.length (JsMore.hex bytes) = (2 * List.length bytes)%nat.
Proof.
  induction bytes as [|b bytes IH]; [reflexivity|].
  cbn [JsMore.hex String.length List.length]. rewrite IH. lia.
Qed.

(** X15. Creating a requirement for a price and signing it gives a
    payload for the merchant's address on solana-devnet whose amount
    reads back as that price: printing the price into the requirement and
    parsing it again loses nothing, for every integer price. *)
Theorem created_requirement_round_trip
    (signData : PaymentFlow.Intent -> Js.Exc (list Byte.byte))
    (clientAddress merchantAddress : Address) (productName : string)
    (priceInLamports now1 now2 : Z) (payload : Payload.t) :
  PaymentFlow.signSolanaPayment signData clientAddress now1 now2
    (PaymentFlow.createSolanaPaymentRequirements
       merchantAddress productName priceInLamports)
  = inr payload ->
  Payload.from payload = clientAddress
  /\ Payload.to payload = merchantAddress
  /\ Payload.network payload = "solana-devnet"
  /\ Payload.timestamp payload = now2
  /\ Js.StringToBigInt (Payload.amount payload) = Some priceInLamports
  /\ Js.StringToBigInt
       (PaymentFlow.maxAmountRequired
          (PaymentFlow.createSolanaPaymentRequirements
             merchantAddress productName priceInLamports))
     = Some priceInLamports.
Proof.
  unfold PaymentFlow.signSolanaPayment, Js.bind, Js.ret.
  destruct (signData _) as [e|bytes]; [discriminate|].
  intros [= <-]. cbn. rewrite BigInt_toString. repeat split.
Qed.

Lemma created_requirement_round_trip_witness :
  Js.StringToBigInt
    (PaymentFlow.maxAmountRequired
       (PaymentFlow.createSolanaPaymentRequirements "M1" "banana" 100000000))
  = Some 100000000.
Proof.
  apply (created_requirement_round_trip
           (fun _ => inr []) "C1" "M1" "banana" 100000000 1 2
           (Payload.mk "C1" "M1" "100000000" "" 2 "solana-devnet")).
  reflexivity.
Defined.

(** X16. The signature of a signed payload is the hex text of the bytes
    the wallet signed with, two characters per byte, so the script's
    format check passes exactly for signatures of 64 bytes. *)
Theorem signed_signature_format
    (signData : PaymentFlow.Intent -> Js.Exc (list Byte.byte))
    (clientAddress : Address) (now1 now2 : Z)
    (requirements : PaymentFlow.Requirements) (payload : Payload.t) :
  PaymentFlow.signSolanaPayment signData clientAddress now1 now2 requirements
  = inr payload ->
  exists bytes,
    signData
      (PaymentFlow.mkIntent (PaymentFlow.payTo requirements)
         (PaymentFlow.maxAmountRequired requirements) now1
         (PaymentFlow.network requirements))
    = inr bytes
    /\ String.length (Payload.signature payload) = (2 * List.length bytes)%nat
    /\ (PaymentFlow.verifySolanaPaymentSignature payload = true
        <-> List.length bytes = 64%nat).
Proof.
  unfold PaymentFlow.signSolanaPayment, Js.bind, Js.ret.
  destruct (signData _) as [e|bytes]; [discriminate|].
  intros [= <-]. exists bytes.
  unfold PaymentFlow.verifySolanaPaymentSignature. cbn [Payload.signature].
  rewrite hex_length. repeat split.
  - intros [_ H]%andb_prop. apply Nat.eqb_eq in H. lia.
  - intros H. rewrite H. reflexivity.
Qed.

Lemma signed_signature_format_witness :
  exists bytes : list Byte.byte,
    String.length (JsMore.hex [Byte.x00; Byte.xff]) = (2 * List.length bytes)%nat.
Proof.
  destruct (signed_signature_format
              (fun _ => inr [Byte.x00; Byte.xff]) "C1" 1 2
              (PaymentFlow.createSolanaPaymentRequirements "M1" "banana" 100000000)
              (Payload.mk "C1" "M1" "100000000" "00ff" 2 "solana-devnet")
              eq_refl)
    as (bytes & _ & Hlen & _).
  exists bytes. exact Hlen.
Defined.

(** X17. End to end: a requirement issued by the merchant's Solana
    builder, signed by the client with a signature of at least 32 bytes
    (an Ed25519 signature has 64), is accepted by the executor's
    verifyPayment, for the full 100000000 lamports. *)
Theorem issued_signed_accepted
    (cfg : Merchant.Config) (params : Js.Value) (requirements : Requirements.t)
    (signData : PaymentFlow.Intent -> Js.Exc (list Byte.byte))
    (clientAddress : Address) (now1 now2 : Z)
    (bytes : list Byte.byte) (payload : Payload.t) :
  Merchant.issued (Merchant.getProductDetailsAndRequestSolanaPayment cfg params)
    = Some requirements ->
  signData
    (PaymentFlow.mkIntent (Requirements.payTo requirements)
       (Requirements.maxAmountRequired requirements) now1
       (Requirements.network requirements))
  = inr bytes ->
  (32 <= List.length bytes)%nat ->
  PaymentFlow.signSolanaPayment signData clientAddress now1 now2
    (PaymentFlow.ofIssued requirements)
  = inr payload ->
  Executor.verifyPayment payload requirements = Spec.accepted payload 100000000.
Proof.
  intros Hissued Hsign Hlen.
  unfold PaymentFlow.signSolanaPayment, Js.bind, Js.ret.
  cbn [PaymentFlow.ofIssued PaymentFlow.payTo PaymentFlow.maxAmountRequired
       PaymentFlow.network].
  rewrite Hsign. intros [= <-].
  destruct (solana_issued cfg params requirements Hissued)
    as (_ & Hscheme & _ & _ & _ & Hmax).
  assert (Hrequired :
            Js.StringToBigInt (Requirements.maxAmountRequired requirements)
            = Some 100000000) by now rewrite Hmax.
  match goal with
  | |- Executor.verifyPayment ?p _ = _ =>
      rewrite (verify_parsed p requirements 100000000 100000000
                 eq_refl Hrequired Hrequired)
  end.
  rewrite signature_test, Hscheme.
  cbn [Payload.network Payload.signature Scheme_eqb andb negb].
  rewrite String.eqb_refl, hex_length.
  destruct (Nat.leb_spec 64 (2 * List.length bytes)); [reflexivity | lia].
Qed.

Lemma issued_signed_accepted_witness :
  Executor.verifyPayment
    (Payload.mk "C1" "M1" "100000000"
       (JsMore.hex (List.repeat Byte.x2a 64)) 2 "solana-devnet")
    {| Requirements.scheme := exact;
       Requirements.network := "solana-devnet";
       Requirements.asset := "SOL";
       Requirements.payTo := "M1";
       Requirements.maxAmountRequired := "100000000";
       Requirements.description := "Payment for: banana";
       Requirements.resource := Some "https://example.com/product/banana";
       Requirements.mimeType := Some "application/json";
       Requirements.maxTimeoutSeconds := Some 1200;
       Requirements.tokenMint := None;
       Requirements.extra :=
         Merchant.productExtra "SOL" "2" [("blockchain", Js.Str "solana")] "banana"
    |}
  = Spec.accepted
      (Payload.mk "C1" "M1" "100000000"
         (JsMore.hex (List.repeat Byte.x2a 64)) 2 "solana-devnet")
      100000000.
Proof.
  apply (issued_signed_accepted Sample.config Sample.banana _
           (fun _ => inr (List.repeat Byte.x2a 64)) "C1" 1 2
           (List.repeat Byte.x2a 64)
           (Payload.mk "C1" "M1" "100000000"
              (JsMore.hex (List.repeat Byte.x2a 64)) 2 "solana-devnet"));
    try reflexivity.
  apply Nat.leb_le. reflexivity.
Defined.

(** ** The client agent's payment tools *)

Section ClientRuns.

Import Wallet.

Variables (sdk : Sdk) (self : Address).

Lemma polling_not_send (signature : string) (events : list Event) :
  Forall (Poll.isPolling signature) events ->
  forall tx, ~ In (EvSendTransaction tx) events.
Proof.
  intros Hall tx Hin. rewrite Forall_forall in Hall.
  destruct (Hall _ Hin); discriminate.
Qed.

(** Every transfer ends with an answer, and whatever it submitted is the
    signed transfer of the amount to the destination. *)
Lemma transferSol_shape (destination : Address) (amount : Z) (st : State) :
  exists result events,
    transferSol sdk self destination amount st
    = (Returns result,
       mkState (polls st + count isQuery events) (trace st ++ events))
    /\ (forall tx,
          In (EvSendTransaction tx) events ->
          exists blockhash amount',
            getLatestBlockhash sdk = inr blockhash
            /\ lamports sdk amount = inr amount'
            /\ signTransactionMessageWithSigners sdk
                 (Poll.transferMessage self destination blockhash amount') = inr tx)
    /\ (events = [] -> False)
    /\ (success result = false -> exists msg, error result = Some msg).
Proof.
  rewrite transferSol_run.
  assert (Hearly : forall e,
            exists result events,
              (Returns (Poll.failure e), Poll.requested st)
              = (Returns result,
                 mkState (polls st + count isQuery events) (trace st ++ events))
              /\ (forall tx,
                    In (EvSendTransaction tx) events ->
                    exists blockhash amount',
                      getLatestBlockhash sdk = inr blockhash
                      /\ lamports sdk amount = inr amount'
                      /\ signTransactionMessageWithSigners sdk
                           (Poll.transferMessage self destination blockhash amount')
                         = inr tx)
              /\ (events = [] -> False)
              /\ (success result = false -> exists msg, error result = Some msg)).
  { intros e. exists (Poll.failure e), [EvGetLatestBlockhash].
    repeat split.
    - unfold Poll.requested. cbn. f_equal. f_equal. lia.
    - intros tx [H|[]]. discriminate.
    - discriminate.
    - intros _. eexists. reflexivity. }
  destruct (getLatestBlockhash sdk) as [e|blockhash]; [apply Hearly|].
  destruct (lamports sdk amount) as [e|amount']; [apply Hearly|].
  destruct (signTransactionMessageWithSigners sdk _) as [e|tx] eqn:Hsign;
    [apply Hearly|].
  clear Hearly.
  assert (Hsent : forall tx',
            In (EvSendTransaction tx') [EvGetLatestBlockhash; EvSendTransaction tx] ->
            exists blockhash' amount'',
              (inr blockhash : Js.Exc Blockhash) = inr blockhash'
              /\ (inr amount' : Js.Exc Z) = inr amount''
              /\ signTransactionMessageWithSigners sdk
                   (Poll.transferMessage self destination blockhash' amount'')
                 = inr tx').
  { intros tx' [H|[H|[]]]; [discriminate|]. injection H as <-.
    exists blockhash, amount'. repeat split. exact Hsign. }
  destruct (sendTransaction sdk tx) as [e|[]].
  - exists (Poll.failure e), [EvGetLatestBlockhash; EvSendTransaction tx].
    repeat split.
    + unfold Poll.submitted. cbn. f_equal. f_equal. lia.
    + exact Hsent.
    + discriminate.
    + intros _. eexists. reflexivity.
  - destruct (confirmLoop_events sdk (txSignature tx) defaultMaxRetries
                (Z.to_nat defaultMaxRetries) 0 (Poll.submitted tx st))
      as (out & events & Hrun & Hall & _ & _ & Hfuel).
    rewrite Hrun. specialize (Hfuel ltac:(unfold defaultMaxRetries; lia)).
    assert (Hstate :
              mkState (polls (Poll.submitted tx st) + count isQuery events)
                (trace (Poll.submitted tx st) ++ events)
              = mkState
                  (polls st
                   + count isQuery
                       ([EvGetLatestBlockhash; EvSendTransaction tx] ++ events))
                  (trace st ++ [EvGetLatestBlockhash; EvSendTransaction tx] ++ events)).
    { unfold Poll.submitted. cbn [polls trace].
      rewrite count_app, <- app_assoc. cbn. reflexivity. }
    assert (Hsends : forall tx',
              In (EvSendTransaction tx')
                 ([EvGetLatestBlockhash; EvSendTransaction tx] ++ events) ->
              exists blockhash' amount'',
                (inr blockhash : Js.Exc Blockhash) = inr blockhash'
                /\ (inr amount' : Js.Exc Z) = inr amount''
                /\ signTransactionMessageWithSigners sdk
                     (Poll.transferMessage self destination blockhash' amount'')
                   = inr tx').
    { intros tx' [H|H]%in_app_or; [now apply Hsent|].
      now apply (polling_not_send _ _ Hall) in H. }
    rewrite Hstate.
    destruct out as [[]|e|]; [| |contradiction].
    + eexists _, _. repeat split; [exact Hsends | discriminate | discriminate].
    + eexists _, _. repeat split; [exact Hsends | discriminate |].
      intros _. eexists. reflexivity.
Qed.

Variable (fmt : Client.Format).

(** processSolanaPayment, step by step. *)
Lemma processSolanaPayment_run
    (paymentOption : Requirements.t) (state : Client.AgentState) (st : State) :
  Client.processSolanaPayment fmt sdk self paymentOption state st =
    match Js.BigInt (Requirements.maxAmountRequired paymentOption) with
    | inl e => (Throws e, st)
    | inr amount =>
        match transferSol sdk self (Requirements.payTo paymentOption) amount st with
        | (Returns result, st') =>
            if success result then
              (Returns
                 (Client.solanaCompleted
                    (JsMore.toString (Client.productNameOf paymentOption))
                    (Client.solDisplay fmt 6 (Js.Number amount))
                    (JsMore.show (signature result)),
                  Client.clearPending state), st')
            else
              (Returns ("Solana payment failed: " ++ JsMore.show (error result), state),
               st')
        | (Throws e, st') => (Throws e, st')
        | (OutOfFuel, st') => (OutOfFuel, st')
        end
    end.
Proof.
  unfold Client.processSolanaPayment, bind, lift, ret, throw.
  destruct (Js.BigInt _) as [e|amount]; [reflexivity|].
  destruct (transferSol _ _ _ _ _) as [[result|e|] st']; try reflexivity.
  now destruct (success result).
Qed.

End ClientRuns.

(** processSolanaPayment submits nothing but the payment it was asked
    for: any transaction it hands to the node is the signed transfer,
    from the client's wallet to the requirement's recipient, of the
    requirement's amount read as an integer. *)
Lemma processSolanaPayment_sends
    (fmt : Client.Format) (sdk : Wallet.Sdk) (self : Address)
    (paymentOption : Requirements.t) (state : Client.AgentState)
    (st : Wallet.State) :
  exists out events,
    Client.processSolanaPayment fmt sdk self paymentOption state st
    = (out,
       Wallet.mkState (Wallet.polls st + Wallet.count Wallet.isQuery events)
                      (Wallet.trace st ++ events))
    /\ out <> Wallet.OutOfFuel
    /\ forall tx,
         In (Wallet.EvSendTransaction tx) events ->
         exists amount blockhash amount',
           Js.StringToBigInt (Requirements.maxAmountRequired paymentOption)
           = Some amount
           /\ Wallet.getLatestBlockhash sdk = inr blockhash
           /\ Wallet.lamports sdk amount = inr amount'
           /\ Wallet.signTransactionMessageWithSigners sdk
                (Poll.transferMessage self (Requirements.payTo paymentOption)
                   blockhash amount')
              = inr tx.
Proof.
  rewrite processSolanaPayment_run. unfold Js.BigInt.
  destruct (Js.StringToBigInt _) as [amount|] eqn:Hamount.
  - cbn [Js.ret].
    destruct (transferSol_shape sdk self (Requirements.payTo paymentOption) amount st)
      as (result & events & Hrun & Hsends & _ & _).
    rewrite Hrun.
    assert (Hgoal : forall tx,
              In (Wallet.EvSendTransaction tx) events ->
              exists amount0 blockhash amount',
                Some amount = Some amount0
                /\ Wallet.getLatestBlockhash sdk = inr blockhash
                /\ Wallet.lamports sdk amount0 = inr amount'
                /\ Wallet.signTransactionMessageWithSigners sdk
                     (Poll.transferMessage self (Requirements.payTo paymentOption)
                        blockhash amount')
                   = inr tx).
    { intros tx Hin. destruct (Hsends tx Hin) as (blockhash & amount' & H).
      exists amount, blockhash, amount'. split; [reflexivity | exact H]. }
    destruct (Wallet.success result); eexists _, events;
      (split; [reflexivity|]); (split; [discriminate | exact Hgoal]).
  - exists (Wallet.Throws
              (Js.mkError
                 ("Cannot convert " ++ Requirements.maxAmountRequired paymentOption
                    ++ " to a BigInt"))), [].
    rewrite app_nil_r, Nat.add_0_r. destruct st.
    split; [reflexivity|]. split; [discriminate|]. intros tx [].
Qed.

(** X18. The client pays what the merchant asked for.  Given a
    requirement issued by the merchant's Solana builder,
    processSolanaPayment always ends, and any transaction it hands to
    the node is the signed transfer of 100000000 lamports from the
    client's wallet to the merchant's Solana address. *)
Theorem client_pays_what_merchant_asked
    (cfg : Merchant.Config) (params : Js.Value) (requirements : Requirements.t)
    (fmt : Client.Format) (sdk : Wallet.Sdk) (self : Address)
    (state : Client.AgentState) (st : Wallet.State) :
  Merchant.issued (Merchant.getProductDetailsAndRequestSolanaPayment cfg params)
    = Some requirements ->
  exists out events,
    Client.processSolanaPayment fmt sdk self requirements state st
    = (out,
       Wallet.mkState (Wallet.polls st + Wallet.count Wallet.isQuery events)
                      (Wallet.trace st ++ events))
    /\ out <> Wallet.OutOfFuel
    /\ forall tx,
         In (Wallet.EvSendTransaction tx) events ->
         exists merchantAddress blockhash amount',
           Merchant.solanaMerchantAddress cfg = Some merchantAddress
           /\ Wallet.getLatestBlockhash sdk = inr blockhash
           /\ Wallet.lamports sdk 100000000 = inr amount'
           /\ Wallet.signTransactionMessageWithSigners sdk
                (Poll.transferMessage self merchantAddress blockhash amount')
              = inr tx.
Proof.
  intros Hissued.
  destruct (solana_issued cfg params requirements Hissued)
    as (_ & _ & _ & Hmerchant & _ & Hmax).
  destruct (processSolanaPayment_sends fmt sdk self requirements state st)
    as (out & events & Hrun & Hout & Hsends).
  exists out, events. repeat split; try assumption.
  intros tx Hin.
  destruct (Hsends tx Hin) as (amount & blockhash & amount' & Hamount & Hb & Ha & Hs).
  rewrite Hmax in Hamount. injection Hamount as <-.
  exists (Requirements.payTo requirements), blockhash, amount'.
  repeat split; assumption.
Qed.

Lemma client_pays_what_merchant_asked_witness :
  exists out events,
    Client.processSolanaPayment
      (Client.mkFormat (fun _ _ => "0.100000") (fun _ => "1.000000"))
      Sample.confirmsThird "C1"
      {| Requirements.scheme := exact;
         Requirements.network := "solana-devnet";
         Requirements.asset := "SOL";
         Requirements.payTo := "M1";
         Requirements.maxAmountRequired := "100000000";
         Requirements.description := "Payment for: banana";
         Requirements.resource := Some "https://example.com/product/banana";
         Requirements.mimeType := Some "application/json";
         Requirements.maxTimeoutSeconds := Some 1200;
         Requirements.tokenMint := None;
         Requirements.extra :=
           Merchant.productExtra "SOL" "2" [("blockchain", Js.Str "solana")] "banana"
      |}
      (Client.mkAgent None None) Wallet.init
    = (out,
       Wallet.mkState (0 + Wallet.count Wallet.isQuery events) ([] ++ events))
    /\ out <> Wallet.OutOfFuel.
Proof.
  destruct (client_pays_what_merchant_asked
              Sample.config Sample.banana _
              (Client.mkFormat (fun _ _ => "0.100000") (fun _ => "1.000000"))
              Sample.confirmsThird "C1" (Client.mkAgent None None) Wallet.init
              eq_refl)
    as (out & events & Hrun & Hout & _).
  exists out, events. split; [exact Hrun | exact Hout].
Defined.

(** X19. The pending payment is cleared exactly when the Solana transfer
    succeeded.  When it failed (a timed-out confirmation included) the
    answer is "Solana payment failed: ..." and the payment stays pending,
    so that confirming again submits a new transaction. *)
Theorem processSolanaPayment_clears_on_success
    (fmt : Client.Format) (sdk : Wallet.Sdk) (self : Address)
    (paymentOption : Requirements.t) (state state' : Client.AgentState)
    (st st' : Wallet.State) (answer : string) :
  Client.processSolanaPayment fmt sdk self paymentOption state st
  = (Wallet.Returns (answer, state'), st') ->
  exists amount result,
    Js.StringToBigInt (Requirements.maxAmountRequired paymentOption) = Some amount
    /\ Wallet.transferSol sdk self (Requirements.payTo paymentOption) amount st
       = (Wallet.Returns result, st')
    /\ (Wallet.success result = true /\ state' = Client.clearPending state
        \/
        Wallet.success result = false /\ state' = state
        /\ answer = "Solana payment failed: " ++ JsMore.show (Wallet.error result)).
Proof.
  rewrite processSolanaPayment_run. unfold Js.BigInt.
  destruct (Js.StringToBigInt _) as [amount|]; [|discriminate].
  cbn [Js.ret].
  destruct (Wallet.transferSol _ _ _ _ _) as [[result|e|] st''] eqn:Hrun;
    try discriminate.
  destruct (Wallet.success result) eqn:Hok; intros [= <- <- <-];
    exists amount, result; repeat split; auto.
Qed.

Lemma processSolanaPayment_clears_on_success_witness :
  exists amount result,
    Js.StringToBigInt "100000000" = Some amount
    /\ Wallet.transferSol Sample.neverSeen "C1" "M1" amount Wallet.init
       = (Wallet.Returns result,
          Wallet.mkState 30
            (Wallet.EvGetLatestBlockhash
             :: Wallet.EvSendTransaction
                  (Wallet.mkSigned
                     (Poll.transferMessage "C1" "M1" "blockhash" 100000000) "sig")
             :: Wallet.rounds "sig" 30))
    /\ (Wallet.success result = true
        /\ Client.mkAgent None None = Client.clearPending (Client.mkAgent None None)
        \/
        Wallet.success result = false
        /\ Client.mkAgent None None = Client.mkAgent None None
        /\ "Solana payment failed: Transaction confirmation timeout"
           = "Solana payment failed: " ++ JsMore.show (Wallet.error result)).
Proof.
  apply (processSolanaPayment_clears_on_success
           (Client.mkFormat (fun _ _ => "0.100000") (fun _ => "1.000000"))
           Sample.neverSeen "C1" (Sample.requirement exact "100000000")).
  vm_compute. reflexivity.
Defined.

Section ClientTools.

Import Wallet.

Variables (fmt : Client.Format) (eth : Client.EthWallet) (sdk : Sdk) (self : Address).

Lemma processSolanaPayment_ends
    (paymentOption : Requirements.t) (state : Client.AgentState) (st : State) :
  (exists answer state' st',
     Client.processSolanaPayment fmt sdk self paymentOption state st
     = (Returns (answer, state'), st'))
  \/ (exists e st',
        Client.processSolanaPayment fmt sdk self paymentOption state st
        = (Throws e, st')).
Proof.
  rewrite processSolanaPayment_run.
  destruct (Js.BigInt _) as [e|amount]; [right; eauto|].
  destruct (transferSol_shape sdk self (Requirements.payTo paymentOption) amount st)
    as (result & events & Hrun & _).
  rewrite Hrun. left. destruct (success result); eauto.
Qed.

Lemma processEthereumPayment_ends
    (paymentOption : Requirements.t) (state : Client.AgentState) (st : State) :
  (exists answer state',
     Client.processEthereumPayment fmt eth paymentOption state st
     = (Returns (answer, state'), st))
  \/ (exists e,
        Client.processEthereumPayment fmt eth paymentOption state st = (Throws e, st)).
Proof.
  unfold Client.processEthereumPayment, bind, lift, ret, throw.
  destruct (Js.BigInt _) as [e|amount]; [right; eauto|].
  destruct (Client.pendingPayment state) as [pending|]; [|right; eauto].
  destruct (Client.signPayment eth _) as [e|[]]; [right; eauto|].
  destruct (Client.executePayment eth _ _ _) as [e|result]; [right; eauto|].
  left. destruct (Client.ethSuccess result); cbn [negb]; eexists _, _; reflexivity.
Qed.

End ClientTools.

(** X20. confirmPayment never fails: whatever the wallets and the node
    do, it ends with an answer, an error inside it becoming "Payment
    processing failed: ...".  With nothing pending it answers "No pending
    payment to confirm." and touches neither the state nor the wallet. *)
Theorem confirmPayment_always_answers
    (fmt : Client.Format) (eth : Client.EthWallet) (sdk : Wallet.Sdk)
    (self : Address) (state : Client.AgentState) (st : Wallet.State) :
  (exists answer state' st',
     Client.confirmPayment fmt eth sdk self state st
     = (Wallet.Returns (answer, state'), st'))
  /\ (Client.pendingPayment state = None ->
      Client.confirmPayment fmt eth sdk self state st
      = (Wallet.Returns ("No pending payment to confirm.", state), st)).
Proof.
  unfold Client.confirmPayment.
  destruct (Client.pendingPayment state) as [pending|] eqn:Hpending;
    [|split; [eexists _, _, _; reflexivity | reflexivity]].
  split; [|discriminate].
  unfold Wallet.tryCatch, Wallet.throw, Wallet.ret.
  destruct (Client.accepts (Client.requirements pending)) as [|paymentOption rest].
  - destruct (Client.blockchain pending) as [[]|]; eexists _, _, _; reflexivity.
  - destruct (Client.blockchain pending) as [[]|].
    + destruct (processEthereumPayment_ends fmt eth paymentOption state st)
        as [(answer & state' & H) | (e & H)]; rewrite H;
        eexists _, _, _; reflexivity.
    + destruct (processSolanaPayment_ends fmt sdk self paymentOption state st)
        as [(answer & state' & st' & H) | (e & st' & H)]; rewrite H;
        eexists _, _, _; reflexivity.
    + destruct (processEthereumPayment_ends fmt eth paymentOption state st)
        as [(answer & state' & H) | (e & H)]; rewrite H;
        eexists _, _, _; reflexivity.
Qed.

Lemma confirmPayment_always_answers_witness :
  Client.confirmPayment
    (Client.mkFormat (fun _ _ => "0.100000") (fun _ => "1.000000"))
    (Client.mkEthWallet (fun _ => inr tt)
       (fun _ _ _ => inr (Client.mkEthResult true (Some "0xabc") None)))
    Sample.confirmsThird "C1" (Client.mkAgent (Some "session") None) Wallet.init
  = (Wallet.Returns
       ("No pending payment to confirm.", Client.mkAgent (Some "session") None),
     Wallet.init).
Proof.
  apply (proj2 (confirmPayment_always_answers
                  (Client.mkFormat (fun _ _ => "0.100000") (fun _ => "1.000000"))
                  (Client.mkEthWallet (fun _ => inr tt)
                     (fun _ _ _ => inr (Client.mkEthResult true (Some "0xabc") None)))
                  Sample.confirmsThird "C1"
                  (Client.mkAgent (Some "session") None) Wallet.init)).
  reflexivity.
Defined.

(** X21. Confirming a pending Solana payment settles it at most once per
    success: the pending payment is gone afterwards exactly when the
    transfer succeeded, and once it is gone, confirming again answers
    "No pending payment to confirm." without touching the wallet. *)
Theorem confirmPayment_solana_settles
    (fmt : Client.Format) (eth : Client.EthWallet) (sdk : Wallet.Sdk)
    (self : Address) (state state' : Client.AgentState)
    (pending : Client.PendingPayment) (paymentOption : Requirements.t)
    (rest : list Requirements.t) (st st' : Wallet.State) (answer : string) :
  Client.pendingPayment state = Some pending ->
  Client.blockchain pending = Some Client.solana ->
  Client.accepts (Client.requirements pending) = paymentOption :: rest ->
  Client.confirmPayment fmt eth sdk self state st
  = (Wallet.Returns (answer, state'), st') ->
  (Client.pendingPayment state' = None
   <-> exists amount result,
         Js.StringToBigInt (Requirements.maxAmountRequired paymentOption) = Some amount
         /\ Wallet.transferSol sdk self (Requirements.payTo paymentOption) amount st
            = (Wallet.Returns result, st')
         /\ Wallet.success result = true)
  /\ (Client.pendingPayment state' = None ->
      forall sdk' st'',
        Client.confirmPayment fmt eth sdk' self state' st''
        = (Wallet.Returns ("No pending payment to confirm.", state'), st'')).
Proof.
  intros Hpending Hchain Haccepts.
  unfold Client.confirmPayment at 1.
  rewrite Hpending, Haccepts, Hchain.
  unfold Wallet.tryCatch. rewrite processSolanaPayment_run. unfold Js.BigInt.
  intros Hrun. split.
  - destruct (Js.StringToBigInt _) as [amount|].
    + cbn [Js.ret] in Hrun.
      destruct (Wallet.transferSol _ _ _ _ _) as [[result|e|] st''] eqn:Htransfer.
      * destruct (Wallet.success result) eqn:Hok;
          injection Hrun as <- <- <-.
        -- split; [|reflexivity]. intros _. exists amount, result. auto.
        -- rewrite Hpending. split; [discriminate|].
           intros (amount' & result' & [= <-] & Ht & H).
           rewrite Htransfer in Ht. congruence.
      * injection Hrun as <- <- <-. rewrite Hpending. split; [discriminate|].
        intros (amount' & result' & [= <-] & Ht & _).
        rewrite Htransfer in Ht. discriminate.
      * discriminate.
    + injection Hrun as <- <- <-. rewrite Hpending. split; [discriminate|].
      intros (amount' & result' & Ha & _). discriminate.
  - intros Hgone sdk' st''. unfold Client.confirmPayment. now rewrite Hgone.
Qed.

Lemma confirmPayment_solana_settles_witness :
  Client.confirmPayment
    (Client.mkFormat (fun _ _ => "0.100000") (fun _ => "1.000000"))
    (Client.mkEthWallet (fun _ => inr tt)
       (fun _ _ _ => inr (Client.mkEthResult true (Some "0xabc") None)))
    Sample.neverSeen "C1" (Client.mkAgent None None) Wallet.init
  = (Wallet.Returns ("No pending payment to confirm.", Client.mkAgent None None),
     Wallet.init).
Proof.
  refine (proj2 (confirmPayment_solana_settles
                   (Client.mkFormat (fun _ _ => "0.100000") (fun _ => "1.000000"))
                   (Client.mkEthWallet (fun _ => inr tt)
                      (fun _ _ _ => inr (Client.mkEthResult true (Some "0xabc") None)))
                   Sample.confirmsThird "C1"
                   (Client.mkAgent None
                      (Some (Client.mkPending "http://localhost:10000" "merchant_agent"
                               (Client.mkPaymentRequired
                                  [Sample.requirement exact "100000000"])
                               None None (Some Client.solana))))
                   (Client.mkAgent None None)
                   (Client.mkPending "http://localhost:10000" "merchant_agent"
                      (Client.mkPaymentRequired [Sample.requirement exact "100000000"])
                      None None (Some Client.solana))
                   (Sample.requirement exact "100000000") []
                   Wallet.init _ _
                   eq_refl eq_refl eq_refl _)
            eq_refl Sample.neverSeen Wallet.init).
  vm_compute. reflexivity.
Defined.

(** X22. Cancelling leaves nothing to pay: after cancelPayment the
    session is kept, no payment is pending, confirming answers "No
    pending payment to confirm." and cancelling again answers "No pending
    payment to cancel."; none of this touches the wallet. *)
Theorem cancel_then_confirm
    (fmt : Client.Format) (eth : Client.EthWallet) (sdk : Wallet.Sdk)
    (self : Address) (state : Client.AgentState) (st : Wallet.State) :
  exists answer,
    Client.cancelPayment state st
    = (Wallet.Returns (answer, Client.clearPending state), st)
    /\ (answer = "Payment cancelled." <-> Client.pendingPayment state <> None)
    /\ (answer = "No pending payment to cancel." <-> Client.pendingPayment state = None)
    /\ Client.sessionId (Client.clearPending state) = Client.sessionId state
    /\ Client.confirmPayment fmt eth sdk self (Client.clearPending state) st
       = (Wallet.Returns
            ("No pending payment to confirm.", Client.clearPending state), st)
    /\ Client.cancelPayment (Client.clearPending state) st
       = (Wallet.Returns
            ("No pending payment to cancel.", Client.clearPending state), st).
Proof.
  unfold Client.cancelPayment, Client.confirmPayment, Wallet.ret.
  destruct state as [session [pending|]]; cbn.
  - exists "Payment cancelled.". repeat split; try discriminate; auto.
  - exists "No pending payment to cancel.". repeat split; try discriminate; auto.
    intros H. contradiction.
Qed.

(** X23. transferSolana never fails and guards its input.  Without a
    recipient, or with an amount that is missing, zero or empty, it
    answers "Please provide both recipient address and amount" and
    touches nothing; with an amount that is no integer it reports the
    conversion error without asking the node for anything; otherwise it
    ends with the answer of the transfer. *)
Theorem transferSolana_answers
    (fmt : Client.Format) (sdk : Wallet.Sdk) (self : Address)
    (params : Client.TransferParams) (st : Wallet.State) :
  (exists answer st',
     Client.transferSolana fmt sdk self params st = (Wallet.Returns answer, st'))
  /\
  (Client.recipient params = None
   \/ Client.recipient params = Some ""
   \/ Js.truthy (Client.transferAmount params) = false ->
   Client.transferSolana fmt sdk self params st
   = (Wallet.Returns "Please provide both recipient address and amount", st))
  /\
  (forall to e,
     Client.recipient params = Some to ->
     to <> "" ->
     Js.truthy (Client.transferAmount params) = true ->
     JsMore.toBigInt (Client.transferAmount params) = inl e ->
     Client.transferSolana fmt sdk self params st
     = (Wallet.Returns ("❌ Transfer failed: " ++ Js.message e), st)).
Proof.
  unfold Client.transferSolana.
  destruct (Client.recipient params) as [to|].
  2:{ split; [eexists _, _; reflexivity|]. split; [reflexivity|]. discriminate. }
  destruct (String.eqb_spec to "") as [->|Hto]; cbn [orb].
  { split; [eexists _, _; reflexivity|]. split; [reflexivity|].
    intros to' e [= <-] H. contradiction. }
  destruct (Js.truthy (Client.transferAmount params)); cbn [negb].
  2:{ split; [eexists _, _; reflexivity|]. split; [reflexivity|]. discriminate. }
  unfold Wallet.tryCatch, Wallet.bind, Wallet.lift, Wallet.ret, Wallet.throw.
  destruct (JsMore.toBigInt _) as [e|amount].
  { split; [eexists _, _; reflexivity|].
    split; [intros [H|[H|H]]; discriminate || (injection H as ->; contradiction)|].
    intros to' e' [= <-] _ _ [= <-]. reflexivity. }
  destruct (transferSol_shape sdk self to amount st)
    as (result & events & Hrun & _).
  rewrite Hrun.
  split; [destruct (Wallet.success result); eexists _, _; reflexivity|].
  split; [intros [H|[H|H]]; discriminate || (injection H as ->; contradiction)|].
  discriminate.
Qed.

Lemma transferSolana_answers_witness :
  Client.transferSolana
    (Client.mkFormat (fun _ _ => "0.100000") (fun _ => "1.000000"))
    Sample.confirmsThird "C1"
    (Client.mkTransferParams (Some "M1") (Js.Number 0)) Wallet.init
  = (Wallet.Returns "Please provide both recipient address and amount", Wallet.init).
Proof.
  apply (proj1 (proj2 (transferSolana_answers
                         (Client.mkFormat (fun _ _ => "0.100000")
                            (fun _ => "1.000000"))
                         Sample.confirmsThird "C1"
                         (Client.mkTransferParams (Some "M1") (Js.Number 0))
                         Wallet.init))).
  right. right. reflexivity.
Defined.

(** X24. requestSolanaAirdrop never fails: it ends with an answer, every
    error becoming "❌ Airdrop failed: ...".  A missing, zero or empty
    amount asks for the default of 2000000000 lamports, and an amount
    that is no integer is reported without asking the node. *)
Theorem requestSolanaAirdrop_answers
    (fmt : Client.Format) (sdk : Wallet.Sdk)
    (rpcRequestAirdrop : Address -> Z -> Js.Exc string) (self : Address)
    (requested : Js.Value) (st : Wallet.State) :
  (exists answer st',
     Client.requestSolanaAirdrop fmt sdk rpcRequestAirdrop self requested st
     = (Wallet.Returns answer, st'))
  /\
  (Js.truthy requested = false ->
   Client.requestSolanaAirdrop fmt sdk rpcRequestAirdrop self requested st
   = Client.requestSolanaAirdrop fmt sdk rpcRequestAirdrop self
       (Js.Number 2000000000) st)
  /\
  (forall e,
     Js.truthy requested = true ->
     JsMore.toBigInt requested = inl e ->
     Client.requestSolanaAirdrop fmt sdk rpcRequestAirdrop self requested st
     = (Wallet.Returns ("❌ Airdrop failed: " ++ Js.message e), st)).
Proof.
  unfold Client.requestSolanaAirdrop, JsMore.or.
  split; [|split].
  - unfold Wallet.tryCatch, Wallet.bind, Wallet.lift, Wallet.ret, Wallet.throw.
    destruct (JsMore.toBigInt _) as [e|lamports]; [eexists _, _; reflexivity|].
    rewrite requestAirdrop_run.
    destruct (Wallet.lamports sdk lamports) as [e|amount'];
      [eexists _, _; reflexivity|].
    destruct (rpcRequestAirdrop self amount') as [e|signature];
      [eexists _, _; reflexivity|].
    destruct (confirmLoop_events sdk signature Wallet.defaultMaxRetries
                (Z.to_nat Wallet.defaultMaxRetries) 0 st)
      as (out & events & Hrun & _ & _ & _ & Hfuel).
    rewrite Hrun.
    specialize (Hfuel ltac:(unfold Wallet.defaultMaxRetries; lia)).
    destruct out as [[]|e|]; [| |contradiction]; eexists _, _; reflexivity.
  - intros ->. reflexivity.
  - intros e -> He.
    unfold Wallet.tryCatch, Wallet.bind, Wallet.lift, Wallet.ret, Wallet.throw.
    now rewrite He.
Qed.

Lemma requestSolanaAirdrop_answers_witness :
  Client.requestSolanaAirdrop
    (Client.mkFormat (fun _ _ => "2.00") (fun _ => "1.000000"))
    Sample.confirmsThird (fun _ _ => inr "airdrop") "C1" (Js.Str "1.5") Wallet.init
  = (Wallet.Returns "❌ Airdrop failed: Cannot convert 1.5 to a BigInt", Wallet.init).
Proof.
  apply (proj2 (proj2 (requestSolanaAirdrop_answers
                         (Client.mkFormat (fun _ _ => "2.00") (fun _ => "1.000000"))
                         Sample.confirmsThird (fun _ _ => inr "airdrop") "C1"
                         (Js.Str "1.5") Wallet.init))
           (Js.mkError "Cannot convert 1.5 to a BigInt"));
    reflexivity.
Defined.
